(** * mapigator: places collection and review scraping

    A shallow embedding of [mapigator.py]: [fetch_places] (the paginated
    places search), [scrape_reviews] (the Selenium review scraper) and
    [display_places] (the table of places).

    The program talks to three outside parties, the places provider, a
    browser and the console it prints on.  They are described by explicit
    values (a script of replies, a tree of page elements, what the
    console does with each string it is asked to print), and every run of
    a function yields the list of effects it performed together with
    either its return value or the exception that leaves it. *)

From Stdlib Require Import String Ascii List ZArith Lia Bool DecimalString.
Import ListNotations.
Open Scope string_scope.
Set Warnings "-register-all".

(** ** Python values *)

(** A Python float is kept as the text [repr] gives for it; that text is
    all the program ever does with one (f-strings and [str]). *)
Record pyfloat := PyFloat { float_repr : string }.

(** What [response.json()] can return.  A dict keeps its insertion order,
    so an object is a list of bindings with pairwise distinct keys. *)
Inductive json :=
| JNull
| JBool (b : bool)
| JInt (n : Z)
| JFloat (x : pyfloat)
| JStr (s : string)
| JArr (items : list json)
| JObj (fields : list (string * json)).

Definition dict := list (string * json).

Fixpoint dict_get (k : string) (d : dict) : option json :=
  match d with
  | [] => None
  | (k', v) :: d' => if String.eqb k k' then Some v else dict_get k d'
  end.

Definition dict_in (k : string) (d : dict) : bool :=
  match dict_get k d with Some _ => true | None => false end.

(** [d[k] = v]: overwrite in place, or append a new binding. *)
Fixpoint dict_set (k : string) (v : json) (d : dict) : dict :=
  match d with
  | [] => [(k, v)]
  | (k', v') :: d' =>
      if String.eqb k k' then (k, v) :: d' else (k', v') :: dict_set k v d'
  end.

(** Python truth value, as tested by [if x:] and [if not x:]. *)
Definition float_is_zero (x : pyfloat) : bool :=
  String.eqb (float_repr x) "0.0" || String.eqb (float_repr x) "-0.0".

Definition truthy (v : json) : bool :=
  match v with
  | JNull => false
  | JBool b => b
  | JInt n => negb (Z.eqb n 0)
  | JFloat x => negb (float_is_zero x)
  | JStr s => negb (String.eqb s "")
  | JArr items => match items with [] => false | _ => true end
  | JObj fields => match fields with [] => false | _ => true end
  end.

(** ** Exceptions and outcomes *)

(** The exceptions the modelled calls raise; all of them derive from
    [Exception], the class the [except] clause of [scrape_reviews]
    catches. *)
Inductive exn :=
| TypeError (msg : string)
| KeyError (key : string)
| AttributeError (msg : string)
| NotRenderableError (msg : string)
| RequestException (msg : string)
| NoSuchElementException (msg : string)
| WebDriverException (msg : string)
| MarkupError (msg : string).

Definition exn_str (e : exn) : string :=
  match e with
  | TypeError m | AttributeError m | NotRenderableError m
  | RequestException m | NoSuchElementException m | WebDriverException m
  | MarkupError m => m
  | KeyError k => "'" ++ k ++ "'"
  end.

Inductive outcome (A : Type) :=
| Ok (a : A)
| Raise (e : exn).
Arguments Ok {A} a.
Arguments Raise {A} e.

(** ** Effects *)

(** What a run does to the outside world.  Sleeping and logging are
    taken to succeed; a call to the provider or the browser is recorded
    when it is made, whether or not it then raises; a line or a table is
    recorded when the console has printed it. *)
Inductive event :=
| EvRequest (url : string) (params : dict)   (* requests.get(url, params=params) *)
| EvSleep (seconds : nat)                    (* time.sleep(seconds) *)
| EvLogError (data : json)                   (* logging.error(..., data) *)
| EvPrint (msg : string)                     (* console.print(msg) *)
| EvPrintJson (data : json)                  (* console.print(Syntax(json.dumps(data))) *)
| EvLaunch                                   (* webdriver.Chrome(...) *)
| EvGet (url : string)                       (* driver.get(url) *)
| EvClick                                    (* element.click() *)
| EvScript (script : string)                 (* driver.execute_script(script, el) *)
| EvQuit                                     (* driver.quit() *)
| EvPrintTable (title : string) (columns : list string)
               (rows : list (list string)).  (* console.print(table) *)

(** A run: the effects performed, in order, and how the run ends. *)
Definition M (A : Type) : Type := (list event * outcome A)%type.

Definition ret {A} (a : A) : M A := ([], Ok a).
Definition raise {A} (e : exn) : M A := ([], Raise e).
Definition tell (ev : event) : M unit := ([ev], Ok tt).
Definition lift {A} (o : outcome A) : M A := ([], o).

Definition bind {A B} (c : M A) (k : A -> M B) : M B :=
  match c with
  | (t, Ok a) => let (t', r) := k a in ((t ++ t')%list, r)
  | (t, Raise e) => (t, Raise e)
  end.

(** [try: body  except Exception as e: handler(e)] *)
Definition try_except {A} (body : M A) (handler : exn -> M A) : M A :=
  match body with
  | (t, Ok a) => (t, Ok a)
  | (t, Raise e) => let (t', r) := handler e in ((t ++ t')%list, r)
  end.

Notation "x <- c ;; k" := (bind c (fun x => k))
  (at level 61, c at next level, right associativity).
Notation "c ;;; k" := (bind c (fun _ => k))
  (at level 61, right associativity).

Definition trace {A} (c : M A) : list event := fst c.
Definition result {A} (c : M A) : outcome A := snd c.

(** ** The console *)

(** [console.print] reads a string as console markup before it prints
    it, and the reading can raise: a closing tag that matches no open
    tag is a [MarkupError].  A console is what that reading does with
    each string. *)
Definition console := string -> outcome unit.

(** [console.print(msg)] for a message that holds text from outside the
    program: nothing is printed when the reading raises.  A message made
    of the program's own text and of numbers is balanced markup, and
    printing it is [tell (EvPrint msg)]. *)
Definition console_print (markup : console) (msg : string) : M unit :=
  lift (markup msg) ;;;
  tell (EvPrint msg).

(** The cells of a table are read the same way when the table is
    printed, one after the other; the first one refused ends the
    printing. *)
Fixpoint render_all (markup : console) (cells : list string)
  : outcome unit :=
  match cells with
  | [] => Ok tt
  | cell :: rest =>
      match markup cell with
      | Ok _ => render_all markup rest
      | Raise e => Raise e
      end
  end.

(** The cells of a table in the order the console measures them, column
    after column. *)
Definition column_cells (index : nat) (rows : list (list string))
  : list string :=
  map (fun row => nth index row "") rows.

Definition table_cells (columns : list string) (rows : list (list string))
  : list string :=
  flat_map (fun index => column_cells index rows)
           (seq 0 (List.length columns)).

(** [console.print(table)]: no table is printed when a cell is
    refused. *)
Definition print_table (markup : console) (title : string)
           (columns : list string) (rows : list (list string)) : M unit :=
  lift (render_all markup (table_cells columns rows)) ;;;
  tell (EvPrintTable title columns rows).

(** ** Operations of Python on JSON values *)

(** [needle in s] for two strings. *)
Fixpoint contains (needle s : string) : bool :=
  String.prefix needle s ||
  match s with
  | EmptyString => false
  | String _ rest => contains needle rest
  end.

Definition is_str (k : string) (v : json) : bool :=
  match v with JStr s => String.eqb s k | _ => false end.

(** [k in data] *)
Definition py_contains (k : string) (data : json) : outcome bool :=
  match data with
  | JObj fields => Ok (dict_in k fields)
  | JArr items => Ok (existsb (is_str k) items)
  | JStr s => Ok (contains k s)
  | _ => Raise (TypeError "argument is not iterable")
  end.

(** [data[k]] *)
Definition py_getitem (data : json) (k : string) : outcome json :=
  match data with
  | JObj fields =>
      match dict_get k fields with
      | Some v => Ok v
      | None => Raise (KeyError k)
      end
  | JArr _ | JStr _ => Raise (TypeError "indices must be integers")
  | _ => Raise (TypeError "object is not subscriptable")
  end.

(** [data.get(k)] and [data.get(k, default)] *)
Definition py_get (data : json) (k : string) (default : json) : outcome json :=
  match data with
  | JObj fields =>
      match dict_get k fields with
      | Some v => Ok v
      | None => Ok default
      end
  | _ => Raise (AttributeError "object has no attribute 'get'")
  end.

(** The characters of a string.  A string is held as its UTF-8 bytes:
    a character is a byte and the continuation bytes ([10xxxxxx]) that
    follow it. *)
Definition is_continuation (c : ascii) : bool :=
  (128 <=? nat_of_ascii c)%nat && (nat_of_ascii c <? 192)%nat.

Definition continues (s : string) : bool :=
  match s with
  | String c _ => is_continuation c
  | EmptyString => false
  end.

Fixpoint code_points (s : string) : list string :=
  match s with
  | EmptyString => []
  | String c rest =>
      match code_points rest with
      | first :: others =>
          if continues rest then String c first :: others
          else String c EmptyString :: first :: others
      | [] => [String c EmptyString]
      end
  end.

Definition chars (s : string) : list json := map JStr (code_points s).

(** The items [list.extend(v)] appends. *)
Definition py_iter (v : json) : outcome (list json) :=
  match v with
  | JArr items => Ok items
  | JStr s => Ok (chars s)
  | JObj fields => Ok (map (fun kv => JStr (fst kv)) fields)
  | _ => Raise (TypeError "object is not iterable")
  end.

(** [s.split(sep)] for a one-character separator. *)
Fixpoint split (sep : ascii) (s : string) : list string :=
  match s with
  | EmptyString => [EmptyString]
  | String c rest =>
      if Ascii.eqb c sep then EmptyString :: split sep rest
      else match split sep rest with
           | [] => [String c EmptyString]
           | w :: ws => String c w :: ws
           end
  end.

(** ** The places provider *)

(** One answer to [requests.get(...)] followed by [response.json()]:
    a decoded body, or the exception either call raises. *)
Inductive reply :=
| Reply (data : json)
| Fails (e : exn).

(** A provider is the script of its answers, in request order; once the
    script is used up every further request fails. *)
Definition provider := list reply.

Definition PLACES_URL : string :=
  "https://maps.googleapis.com/maps/api/place/nearbysearch/json".

Definition CHROME_DRIVER_PATH : string := "./chromedriver".

Section FetchPlaces.

(** [API_KEY = os.getenv("API_KEY")], checked non-empty at import. *)
Variable API_KEY : string.

(** The body of [while True:], one script entry per iteration.  The
    spinner of [rich.progress] is display only and left out. *)
Fixpoint fetch_loop (script : provider) (verbose : bool)
         (params : dict) (places : list json) (next_page_token : json)
  : M (list json) :=
  let params :=
    if truthy next_page_token
    then dict_set "pagetoken" next_page_token params
    else params in
  tell (EvRequest PLACES_URL params) ;;;
  match script with
  | [] => raise (RequestException "no answer")
  | Fails e :: _ => raise e
  | Reply data :: script' =>
      (if verbose
       then tell (EvPrint "[bold green]Raw API Response:[/bold green]") ;;;
            tell (EvPrintJson data)
       else ret tt) ;;;
      has_results <- lift (py_contains "results" data) ;;
      if has_results then
        results <- lift (py_getitem data "results") ;;
        items <- lift (py_iter results) ;;
        let places := (places ++ items)%list in
        next_page_token <- lift (py_get data "next_page_token" JNull) ;;
        if negb (truthy next_page_token) then ret places
        else
          tell (EvSleep 2) ;;;
          fetch_loop script' verbose params places next_page_token
      else
        tell (EvLogError data) ;;;
        ret places
  end.

Definition base_params (lat lng : pyfloat) (radius : Z)
           (types : option string) : dict :=
  let params :=
    [ ("location", JStr (float_repr lat ++ "," ++ float_repr lng));
      ("radius", JInt radius);
      ("key", JStr API_KEY) ] in
  match types with
  | Some t =>
      if truthy (JStr t)
      then dict_set "type" (JStr (String.concat "|" (split "," t))) params
      else params
  | None => params
  end.

Definition fetch_places (script : provider) (lat lng : pyfloat)
           (radius : Z) (types : option string) (verbose : bool)
  : M (list json) :=
  fetch_loop script verbose (base_params lat lng radius types) [] JNull.

End FetchPlaces.

(** ** The browser *)

Inductive By := XPATH | CLASS_NAME.

(** A located page element: what each of its methods answers.  Every
    Selenium call can fail, so every answer is an [outcome]. *)
Inductive WebElement := mkWebElement {
  el_text : outcome string;
  el_click : outcome unit;
  el_find_element : By -> string -> outcome WebElement;
  el_find_elements : By -> string -> outcome (list WebElement)
}.

(** A running driver.  [execute_script] is also given the number of
    scripts run before it, so that a later scroll may fail after earlier
    ones went through.  [quit] has no field: the Chrome driver absorbs
    the failures of its own shutdown and always returns. *)
Record WebDriver := mkWebDriver {
  get : string -> outcome unit;
  find_element : By -> string -> outcome WebElement;
  find_elements : By -> string -> outcome (list WebElement);
  execute_script : nat -> string -> WebElement -> outcome unit
}.

(** What [webdriver.Chrome(service=service, options=options)] does: hand
    over a driver or raise. *)
Definition browser := outcome WebDriver.

Record Review := mkReview {
  author : string;
  rating : nat;
  text : string
}.

Definition REVIEWS_BUTTON : string := "//button[contains(text(), 'reviews')]".
Definition SCROLL_TO_BOTTOM : string :=
  "arguments[0].scrollTop = arguments[0].scrollHeight".

Definition str_nat (n : nat) : string := NilZero.string_of_uint (Nat.to_uint n).

(** The body of [for review in review_elements:]. *)
Definition parse_review (review : WebElement) : M Review :=
  author_el <- lift (el_find_element review CLASS_NAME "d4r55") ;;
  author <- lift (el_text author_el) ;;
  stars <- lift (el_find_elements review CLASS_NAME "kvMYJc") ;;
  let rating := length stars in
  text_el <- lift (el_find_element review CLASS_NAME "wiI7pd") ;;
  text <- lift (el_text text_el) ;;
  ret (mkReview author rating text).

Fixpoint parse_loop (review_elements : list WebElement)
         (reviews : list Review) : M (list Review) :=
  match review_elements with
  | [] => ret reviews
  | review :: rest =>
      r <- parse_review review ;;
      parse_loop rest (reviews ++ [r])%list
  end.

(** [for _ in range(n):] with [done] iterations behind it. *)
Fixpoint scroll_loop (driver : WebDriver) (scrollable_div : WebElement)
         (done n : nat) : M unit :=
  match n with
  | 0 => ret tt
  | S n' =>
      tell (EvScript SCROLL_TO_BOTTOM) ;;;
      lift (execute_script driver done SCROLL_TO_BOTTOM scrollable_div) ;;;
      tell (EvSleep 1) ;;;
      scroll_loop driver scrollable_div (S done) n'
  end.

(** The [try:] block of [scrape_reviews]. *)
Definition extract_reviews (driver : WebDriver) : M (list Review) :=
  review_button <- lift (find_element driver XPATH REVIEWS_BUTTON) ;;
  tell EvClick ;;;
  lift (el_click review_button) ;;;
  tell (EvSleep 3) ;;;
  tell (EvPrint "[bold yellow]Loading all reviews...[/bold yellow]") ;;;
  scrollable_div <- lift (find_element driver CLASS_NAME "m6QErb") ;;
  scroll_loop driver scrollable_div 0 10 ;;;
  review_elements <- lift (find_elements driver CLASS_NAME "jftiEf") ;;
  reviews <- parse_loop review_elements [] ;;
  tell (EvPrint ("[bold green]Scraped " ++ str_nat (length reviews)
                 ++ " reviews![/bold green]")) ;;;
  ret reviews.

Definition place_url (place_id : string) : string :=
  "https://www.google.com/maps/place/?q=place_id:" ++ place_id.

(** The line printed before the page is opened, and the one printed by
    the [except] clause. *)
Definition opening_line (place_id : string) : string :=
  "[bold cyan]Opening Google Maps for place ID: " ++ place_id
  ++ "...[/bold cyan]".

Definition error_line (e : exn) : string :=
  "[bold red]Error scraping reviews: " ++ exn_str e ++ "[/bold red]".

Definition scrape_reviews (markup : console) (Chrome : browser)
           (place_id : string) : M (list Review) :=
  let url := place_url place_id in
  tell EvLaunch ;;;
  driver <- lift Chrome ;;
  console_print markup (opening_line place_id) ;;;
  tell (EvGet url) ;;;
  lift (get driver url) ;;;
  tell (EvSleep 5) ;;;
  reviews <- try_except (extract_reviews driver)
               (fun e =>
                  console_print markup (error_line e) ;;;
                  ret []) ;;
  tell EvQuit ;;;
  ret reviews.

(** ** The table of places *)

Definition str_Z (n : Z) : string := NilZero.string_of_int (Z.to_int n).

Section DisplayPlaces.

(** [str] of a list or dict; its exact text plays no part here. *)
Variable repr_container : json -> string.

Definition py_str (v : json) : string :=
  match v with
  | JNull => "None"
  | JBool true => "True"
  | JBool false => "False"
  | JInt n => str_Z n
  | JFloat x => float_repr x
  | JStr s => s
  | JArr _ | JObj _ => repr_container v
  end.

(** A cell handed to [Table.add_row]: a [str] is kept, [None] gives an
    empty cell, any other JSON value is refused by [rich]. *)
Definition add_cell (v : json) : outcome string :=
  match v with
  | JStr s => Ok s
  | JNull => Ok ""
  | _ => Raise (NotRenderableError "unable to render")
  end.

(** The body of [for place in places:], giving the row it adds. *)
Definition place_row (place : json) : M (list string) :=
  geometry <- lift (py_get place "geometry" (JObj [])) ;;
  location <- lift (py_get geometry "location" (JObj [])) ;;
  lat_v <- lift (py_get location "lat" (JStr "N/A")) ;;
  let lat := py_str lat_v in
  lng_v <- lift (py_get location "lng" (JStr "N/A")) ;;
  let lng := py_str lng_v in
  name <- lift (py_get place "name" (JStr "N/A")) ;;
  rating_v <- lift (py_get place "rating" (JStr "N/A")) ;;
  place_id <- lift (py_getitem place "place_id") ;;
  name_cell <- lift (add_cell name) ;;
  id_cell <- lift (add_cell place_id) ;;
  ret [name_cell; py_str rating_v; id_cell; lat; lng].

Fixpoint rows_loop (places : list json) (rows : list (list string))
  : M (list (list string)) :=
  match places with
  | [] => ret rows
  | place :: rest =>
      row <- place_row place ;;
      rows_loop rest (rows ++ [row])%list
  end.

Definition COLUMNS : list string :=
  ["Name"; "Rating"; "Place ID"; "Latitude"; "Longitude"].

Definition display_places (markup : console) (places : list json)
  : M unit :=
  rows <- rows_loop places [] ;;
  print_table markup "Places Found" COLUMNS rows.

(** *** Reading a place record *)

Definition place_field (k : string) (place : json) : option json :=
  match place with
  | JObj fields => dict_get k fields
  | _ => None
  end.

Definition place_location (place : json) : option json :=
  match place_field "geometry" place with
  | Some geometry => place_field "location" geometry
  | None => None
  end.

Definition place_coord (k : string) (place : json) : option json :=
  match place_location place with
  | Some location => place_field k location
  | None => None
  end.

(** The text of a field, or ["N/A"] when the field is missing. *)
Definition text_or_na (field : option json) : string :=
  match field with
  | Some v => py_str v
  | None => "N/A"
  end.

Definition expected_row (place : json) : list string :=
  [ text_or_na (place_field "name" place);
    text_or_na (place_field "rating" place);
    text_or_na (place_field "place_id" place);
    text_or_na (place_coord "lat" place);
    text_or_na (place_coord "lng" place) ].

End DisplayPlaces.

Definition is_obj (v : json) : bool :=
  match v with JObj _ => true | _ => false end.

Definition is_text (v : json) : bool :=
  match v with JStr _ => true | _ => false end.

Definition when_present (p : json -> bool) (field : option json) : bool :=
  match field with
  | Some v => p v
  | None => true
  end.

(** A place record of the provider's shape in which any field may be
    missing: an object whose name and identifier, where present, are
    strings and whose geometry and location, where present, are objects.
    Rating and coordinates may hold any value. *)
Definition place_record (place : json) : bool :=
  is_obj place
  && when_present is_text (place_field "name" place)
  && when_present is_text (place_field "place_id" place)
  && when_present is_obj (place_field "geometry" place)
  && when_present is_obj (place_location place).

Definition has_place_id (place : json) : bool :=
  match place_field "place_id" place with
  | Some _ => true
  | None => false
  end.

(** ** Reading runs and responses *)

(** [c] run after the effects [t]. *)
Definition after {A} (t : list event) (c : M A) : M A :=
  ((t ++ fst c)%list, snd c).

(** The parameters of the requests issued along a trace, in order. *)
Fixpoint requests (t : list event) : list dict :=
  match t with
  | [] => []
  | EvRequest _ params :: t' => params :: requests t'
  | _ :: t' => requests t'
  end.

(** How many times the driver was quit along a trace. *)
Fixpoint count_quit (t : list event) : nat :=
  match t with
  | [] => 0
  | EvQuit :: t' => S (count_quit t')
  | _ :: t' => count_quit t'
  end.

(** The [results] array of a response, when it is an object holding one. *)
Definition results_array (data : json) : option (list json) :=
  match data with
  | JObj fields =>
      match dict_get "results" fields with
      | Some (JArr items) => Some items
      | _ => None
      end
  | _ => None
  end.

Definition has_results_array (data : json) : Prop :=
  results_array data <> None.

(** A response object without a [results] field. *)
Definition lacks_results (data : json) : Prop :=
  match data with
  | JObj fields => dict_get "results" fields = None
  | _ => False
  end.

(** The continuation cursor of a response object ([None] when absent). *)
Definition continuation_cursor (data : json) : json :=
  match data with
  | JObj fields =>
      match dict_get "next_page_token" fields with
      | Some v => v
      | None => JNull
      end
  | _ => JNull
  end.

Definition has_cursor (data : json) : Prop :=
  truthy (continuation_cursor data) = true.

(** Every entry of every page, in page order. *)
Definition all_results (pages : list json) : list json :=
  flat_map (fun data => match results_array data with
                        | Some items => items
                        | None => []
                        end) pages.

Definition verbose_events (verbose : bool) (data : json) : list event :=
  if verbose
  then [EvPrint "[bold green]Raw API Response:[/bold green]"; EvPrintJson data]
  else [].

Definition next_params (params : dict) (next_page_token : json) : dict :=
  if truthy next_page_token
  then dict_set "pagetoken" next_page_token params
  else params.

(** Effects, parameters and cursor of the loop after a run of pages that
    each carry results and a cursor. *)
Fixpoint pages_trace (verbose : bool) (params : dict) (tok : json)
         (pages : list json) : list event :=
  match pages with
  | [] => []
  | data :: rest =>
      (EvRequest PLACES_URL (next_params params tok)
         :: verbose_events verbose data)
      ++ EvSleep 2
      :: pages_trace verbose (next_params params tok)
                     (continuation_cursor data) rest
  end%list.

Fixpoint params_after (params : dict) (tok : json) (pages : list json) : dict :=
  match pages with
  | [] => params
  | data :: rest =>
      params_after (next_params params tok) (continuation_cursor data) rest
  end.

Fixpoint cursor_after (tok : json) (pages : list json) : json :=
  match pages with
  | [] => tok
  | data :: rest => cursor_after (continuation_cursor data) rest
  end.

(** ** Reading a scraping run *)

(** The effects of [scrape_reviews] up to the [try:] block. *)
Definition opening (place_id : string) : list event :=
  [ EvLaunch;
    EvPrint (opening_line place_id);
    EvGet (place_url place_id);
    EvSleep 5 ].

(** The message printed by the [except] clause. *)
Definition error_report (e : exn) : event :=
  EvPrint (error_line e).

(** The console prints the message of every exception the [try:] block
    of a scraping run on [driver] raises. *)
Definition reports_rendered (markup : console) (driver : WebDriver) : Prop :=
  forall e, result (extract_reviews driver) = Raise e ->
            markup (error_line e) = Ok tt.

(** The reveal control and the reviews panel are found, the click and
    the ten scroll commands go through. *)
Definition panel_loaded (driver : WebDriver) : Prop :=
  exists button panel,
    find_element driver XPATH REVIEWS_BUTTON = Ok button /\
    el_click button = Ok tt /\
    find_element driver CLASS_NAME "m6QErb" = Ok panel /\
    forall i, i < 10 ->
              execute_script driver i SCROLL_TO_BOTTOM panel = Ok tt.

(** A review container with author text [a], [n] rating markers and
    body text [b]. *)
Definition well_formed (c : WebElement) (a : string) (n : nat) (b : string)
  : Prop :=
  exists author_el stars text_el,
    el_find_element c CLASS_NAME "d4r55" = Ok author_el /\
    el_text author_el = Ok a /\
    el_find_elements c CLASS_NAME "kvMYJc" = Ok stars /\
    List.length stars = n /\
    el_find_element c CLASS_NAME "wiI7pd" = Ok text_el /\
    el_text text_el = Ok b.

(** A review container whose author or body element cannot be found. *)
Definition missing_sub_element (c : WebElement) : Prop :=
  (exists e, el_find_element c CLASS_NAME "d4r55" = Raise e) \/
  (exists e, el_find_element c CLASS_NAME "wiI7pd" = Raise e).

(** ** Sample data *)

(** The response of the test suite's [mock_places_response] fixture. *)
Definition test_hospital : json :=
  JObj [ ("name", JStr "Test Hospital");
         ("rating", JFloat (PyFloat "4.5"));
         ("place_id", JStr "test123");
         ("geometry",
          JObj [("location",
                 JObj [ ("lat", JFloat (PyFloat "40.7128"));
                        ("lng", JFloat (PyFloat "-74.006")) ])]) ].

Definition mock_places_response : json :=
  JObj [ ("results", JArr [test_hospital]); ("status", JStr "OK") ].

(** A first page that announces a second one. *)
Definition first_page : json :=
  JObj [ ("results", JArr [test_hospital; JObj [("place_id", JStr "abc")]]);
         ("next_page_token", JStr "tok1") ].

(** An error payload that still carries a cursor. *)
Definition cursor_without_results : json :=
  JObj [ ("status", JStr "INVALID_REQUEST");
         ("next_page_token", JStr "tok9") ].

Definition sample_lat : pyfloat := PyFloat "40.7128".
Definition sample_lng : pyfloat := PyFloat "-74.006".

(** A place whose geometry is [null]. *)
Definition place_null_geometry : json :=
  JObj [ ("name", JStr "Test Hospital"); ("place_id", JStr "test123");
         ("geometry", JNull) ].

Definition sample_repr (v : json) : string := "[...]".

Definition no_such_element (value : string) : exn :=
  NoSuchElementException ("no such element: " ++ value).

(** An element without children. *)
Definition leaf (t : string) : WebElement :=
  mkWebElement (Ok t) (Ok tt)
               (fun _ value => Raise (no_such_element value))
               (fun _ _ => Ok []).

(** A review container; [None] leaves the author or the body out. *)
Definition review_container (a : option string) (n : nat) (b : option string)
  : WebElement :=
  let sub (o : option string) (value : string) :=
    match o with
    | Some t => Ok (leaf t)
    | None => Raise (no_such_element value)
    end in
  mkWebElement (Ok "") (Ok tt)
    (fun _ value =>
       if String.eqb value "d4r55" then sub a value
       else if String.eqb value "wiI7pd" then sub b value
       else Raise (no_such_element value))
    (fun _ value =>
       if String.eqb value "kvMYJc" then Ok (repeat (leaf "") n) else Ok []).

(** A page: whether navigation works, whether the reveal control is
    there, and the review containers it holds. *)
Definition page (navigation : outcome unit) (reveal : bool)
           (containers : list WebElement) : WebDriver :=
  mkWebDriver
    (fun _ => navigation)
    (fun by_ value =>
       match by_ with
       | XPATH => if reveal then Ok (leaf "reviews")
                  else Raise (no_such_element value)
       | CLASS_NAME => Ok (leaf "")
       end)
    (fun _ _ => Ok containers)
    (fun _ _ _ => Ok tt).

Definition great_place : WebElement :=
  review_container (Some "Ann") 5 (Some "Great place!").

Definition no_author : WebElement :=
  review_container None 2 (Some "Too loud").

(** A page on which looking for the reveal control raises [e]. *)
Definition broken_page (e : exn) : WebDriver :=
  mkWebDriver
    (fun _ => Ok tt)
    (fun _ _ => Raise e)
    (fun _ _ => Ok [])
    (fun _ _ _ => Ok tt).

(** A console that refuses, as the real one does, a string holding the
    closing tag [[/x]], which no line of the program opens, and prints
    every other string.  The text of its exception stands for the one of
    the real console, which also gives the position of the tag. *)
Definition UNMATCHED : exn :=
  MarkupError "closing tag '[/x]' doesn't match any open tag".

Definition sample_console : console :=
  fun msg => if contains "[/x]" msg then Raise UNMATCHED else Ok tt.

(** An exception whose message holds that tag, and a place named by
    it. *)
Definition bad_tag : exn := NoSuchElementException "bad [/x] tag".

Definition place_named_by_tag : json :=
  JObj [ ("name", JStr "[/x]"); ("place_id", JStr "p") ].

(** ** More readings of a trace *)

(** Seconds spent in [time.sleep] along a trace. *)
Fixpoint slept (t : list event) : nat :=
  match t with
  | [] => 0
  | EvSleep seconds :: t' => seconds + slept t'
  | _ :: t' => slept t'
  end.

(** How many browsers were launched, how many scroll scripts were run. *)
Fixpoint count_launch (t : list event) : nat :=
  match t with
  | [] => 0
  | EvLaunch :: t' => S (count_launch t')
  | _ :: t' => count_launch t'
  end.

Fixpoint count_script (t : list event) : nat :=
  match t with
  | [] => 0
  | EvScript _ :: t' => S (count_script t')
  | _ :: t' => count_script t'
  end.

(** Every request that is not the first event of the trace comes
    directly after a sleep of two seconds. *)
Fixpoint paced (t : list event) : bool :=
  match t with
  | [] => true
  | ev :: t' =>
      match t' with
      | EvRequest _ _ :: _ =>
          match ev with
          | EvSleep 2 => paced t'
          | _ => false
          end
      | _ => paced t'
      end
  end.

Definition count_requests (t : list event) : nat := List.length (requests t).

(** The console output of the verbose flag. *)
Definition is_console (ev : event) : bool :=
  match ev with
  | EvPrint _ | EvPrintJson _ => true
  | _ => false
  end.

Definition without_console (t : list event) : list event :=
  filter (fun ev => negb (is_console ev)) t.

(** [types] with every comma turned into a pipe. *)
Fixpoint pipe_for_comma (s : string) : string :=
  match s with
  | EmptyString => EmptyString
  | String c rest =>
      String (if Ascii.eqb c "," then "|"%char else c) (pipe_for_comma rest)
  end.

(** [null], a boolean or a number: a value Python cannot iterate. *)
Definition scalar (v : json) : bool :=
  match v with
  | JNull | JBool _ | JInt _ | JFloat _ => true
  | _ => false
  end.

(** A response body Python cannot search for ["results"], or whose
    [results] cannot be iterated. *)
Definition not_iterable_results (data : json) : bool :=
  match data with
  | JObj fields =>
      match dict_get "results" fields with
      | Some v => scalar v
      | None => false
      end
  | _ => scalar data
  end.

(** The query of a follow-up request: the base query with the cursor of
    the previous page as [pagetoken]. *)
Definition follow_up (base : dict) (params : dict) : Prop :=
  exists tok, truthy tok = true /\ params = dict_set "pagetoken" tok base.

(** ** Reading any place object *)

(** The objects [display_places] can turn into a row: name absent, a
    string or [null]; identifier a string or [null]; geometry and its
    location absent or objects. *)
Definition is_cell (v : json) : bool :=
  match v with
  | JStr _ | JNull => true
  | _ => false
  end.

Definition displayable (place : json) : bool :=
  is_obj place
  && when_present is_cell (place_field "name" place)
  && has_place_id place
  && when_present is_cell (place_field "place_id" place)
  && when_present is_obj (place_field "geometry" place)
  && when_present is_obj (place_location place).

(** The cell [rich] shows for a name or an identifier. *)
Definition cell_text (field : option json) : string :=
  match field with
  | Some (JStr s) => s
  | Some _ => ""
  | None => "N/A"
  end.

Definition displayed_row (repr_container : json -> string) (place : json)
  : list string :=
  [ cell_text (place_field "name" place);
    text_or_na repr_container (place_field "rating" place);
    cell_text (place_field "place_id" place);
    text_or_na repr_container (place_coord "lat" place);
    text_or_na repr_container (place_coord "lng" place) ].

(** ** The command line program *)

(** The parsed command line, [args = parser.parse_args()]. *)
Record Args := mkArgs {
  lat : pyfloat;
  lng : pyfloat;
  radius : Z;
  types : option string;
  yes : bool;
  verbose : bool
}.

(** The effects of the program: those of the three functions, the
    plain [print] of the start-up check and the prompt of [input]. *)
Inductive main_event :=
| Core (ev : event)
| EvStdout (line : string)
| EvInput (prompt : string).

(** How the program ends: [main] returns, [sys.exit(code)], an
    exception nobody catches, or [input] finding the terminal closed. *)
Inductive termination :=
| Returns
| Exits (code : Z)
| Raises (e : exn)
| RaisesEOFError.

Definition Main : Type := (list main_event * termination)%type.

(** A call of one of the three functions inside [main]. *)
Definition call {A} (c : M A) (k : A -> Main) : Main :=
  match c with
  | (t, Ok a) => let (t', r) := k a in ((map Core t ++ t')%list, r)
  | (t, Raise e) => (map Core t, Raises e)
  end.

(** [console.print(msg)] inside [main]. *)
Definition say (msg : string) (k : Main) : Main :=
  let (t, r) := k in (Core (EvPrint msg) :: t, r).

Definition core (t : list main_event) : list event :=
  flat_map (fun ev => match ev with Core ev => [ev] | _ => [] end) t.

Fixpoint count_input (t : list main_event) : nat :=
  match t with
  | [] => 0
  | EvInput _ :: t' => S (count_input t')
  | _ :: t' => count_input t'
  end.

Definition newline : string := String "010"%char EmptyString.

Definition PROMPT : string :=
  "Do you want to scrape reviews for these places? (y/N): ".

Definition review_line (review : Review) : string :=
  "⭐ " ++ str_nat (rating review) ++ " - " ++ author review ++ ": "
  ++ text review.

Definition fetching_line (place_name : string) : string :=
  newline ++ "[bold]Fetching reviews for " ++ place_name ++ "...[/bold]".

(** [for review in reviews: console.print(...)] *)
Fixpoint print_reviews (markup : console) (reviews : list Review)
  : M unit :=
  match reviews with
  | [] => ret tt
  | review :: rest =>
      console_print markup (review_line review) ;;;
      print_reviews markup rest
  end.

Section MainProgram.

Variable API_KEY : string.
Variable repr_container : json -> string.
Variable markup : console.

(** [for place in places:] of [main].  Every call of [scrape_reviews]
    launches a browser of its own: [Chrome n] is what the launch gives
    after [n] earlier ones. *)
Fixpoint scrape_places (Chrome : nat -> browser) (launched : nat)
         (places : list json) : M unit :=
  match places with
  | [] => ret tt
  | place :: rest =>
      place_name <- lift (py_get place "name" (JStr "Unknown Place")) ;;
      place_id <- lift (py_getitem place "place_id") ;;
      console_print markup
        (fetching_line (py_str repr_container place_name)) ;;;
      reviews <- scrape_reviews markup (Chrome launched)
                                (py_str repr_container place_id) ;;
      print_reviews markup reviews ;;;
      scrape_places Chrome (S launched) rest
  end.

(** [if not args.yes:] and what follows it.  [terminal] is the answer
    typed at the prompt once stripped and put in lower case, the value
    of [confirm]; [None] when the terminal is closed. *)
Definition confirmation (args : Args) (terminal : option string) (k : Main)
  : Main :=
  if yes args then k
  else
    match terminal with
    | None => ([EvInput PROMPT], RaisesEOFError)
    | Some confirm =>
        if negb (String.eqb confirm "y")
        then ([EvInput PROMPT;
               Core (EvPrint
                       "[bold yellow]Exiting without scraping.[/bold yellow]")],
              Exits 0)
        else let (t, r) := k in (EvInput PROMPT :: t, r)
    end.

Definition main (args : Args) (script : provider) (terminal : option string)
           (Chrome : nat -> browser) : Main :=
  call (fetch_places API_KEY script (lat args) (lng args) (radius args)
                     (types args) (verbose args))
    (fun places =>
       match places with
       | [] => say "[bold red]No places found.[/bold red]" ([], Exits 1)
       | _ =>
           say ("[bold green]Found " ++ str_nat (List.length places)
                ++ " places.[/bold green]")
             (call (display_places repr_container markup places)
                (fun _ =>
                   confirmation args terminal
                     (say "[bold cyan]Scraping reviews...[/bold cyan]"
                        (call (scrape_places Chrome 0 places)
                           (fun _ =>
                              say "[bold green]Done![/bold green]"
                                  ([], Returns))))))
       end).

End MainProgram.

Definition MISSING_KEY : string :=
  "❌ ERROR: API_KEY is missing. Please set it in the .env file.".

(** The script run as a program: the start-up check of the module, then
    [main].  [env] is what [os.getenv("API_KEY")] returns. *)
Definition program (env : option string) (repr_container : json -> string)
           (markup : console) (args : Args) (script : provider)
           (terminal : option string) (Chrome : nat -> browser) : Main :=
  match env with
  | Some key =>
      if negb (truthy (JStr key)) then ([EvStdout MISSING_KEY], Exits 1)
      else main key repr_container markup args script terminal Chrome
  | None => ([EvStdout MISSING_KEY], Exits 1)
  end.

(** A launch that gives a driver on which every navigation succeeds,
    and a launch that fails with [e], at once or at the navigation. *)
Definition opens_pages (Chrome : browser) : Prop :=
  exists driver, Chrome = Ok driver /\ forall url, get driver url = Ok tt.

Definition fails_to_open (Chrome : browser) (e : exn) : Prop :=
  Chrome = Raise e \/
  exists driver, Chrome = Ok driver /\ forall url, get driver url = Raise e.

(** The console prints a line for each review a scraping run on
    [driver] returns. *)
Definition reviews_rendered (markup : console) (driver : WebDriver) : Prop :=
  forall reviews,
    result (extract_reviews driver) = Ok reviews ->
    Forall (fun review => markup (review_line review) = Ok tt) reviews.

(** The console prints whatever a scraping run in the browser prints of
    the page: the error report or the reviews. *)
Definition session_rendered (markup : console) (Chrome : browser) : Prop :=
  forall driver,
    Chrome = Ok driver ->
    reports_rendered markup driver /\ reviews_rendered markup driver.

(** The console prints the two lines that name a place: the one of
    [main] with its name, the one of [scrape_reviews] with its
    identifier. *)
Definition lines_rendered (repr_container : json -> string)
           (markup : console) (place : json) : Prop :=
  (forall place_name,
      py_get place "name" (JStr "Unknown Place") = Ok place_name ->
      markup (fetching_line (py_str repr_container place_name)) = Ok tt) /\
  (forall place_id,
      py_getitem place "place_id" = Ok place_id ->
      markup (opening_line (py_str repr_container place_id)) = Ok tt).

(** The console accepts the text of every cell of a table. *)
Definition cells_accepted (markup : console) (rows : list (list string))
  : Prop :=
  Forall (Forall (fun cell => markup cell = Ok tt)) rows.

(** A browser that opens any page, with the given review containers
    behind a working reveal control. *)
Definition working_browser (containers : list WebElement) : browser :=
  Ok (page (Ok tt) true containers).

Definition sample_args (confirmed : bool) : Args :=
  mkArgs sample_lat sample_lng 1000 (Some "hospital,pharmacy") confirmed false.

(** * Properties *)

Open Scope list_scope.

(** ** Runs *)

Lemma bind_run {A B} (t : list event) (a : A) (k : A -> M B) :
  bind (t, Ok a) k = after t (k a).
Proof. unfold bind, after. destruct (k a); reflexivity. Qed.

Lemma bind_raise {A B} (t : list event) (e : exn) (k : A -> M B) :
  bind (t, Raise e) k = (t, Raise e).
Proof. reflexivity. Qed.

Lemma bind_lift_ok {A B} (a : A) (k : A -> M B) :
  bind (lift (Ok a)) k = k a.
Proof. unfold lift, bind. destruct (k a); reflexivity. Qed.

Lemma bind_lift_raise {A B} (e : exn) (k : A -> M B) :
  bind (lift (Raise e)) k = ([], Raise e).
Proof. reflexivity. Qed.

Lemma bind_ret {A B} (a : A) (k : A -> M B) : bind (ret a) k = k a.
Proof. apply bind_lift_ok. Qed.

Lemma bind_tell {B} (ev : event) (k : unit -> M B) :
  bind (tell ev) k = after [ev] (k tt).
Proof. apply bind_run. Qed.

Lemma after_nil {A} (c : M A) : after [] c = c.
Proof. destruct c; reflexivity. Qed.

Lemma after_after {A} (t u : list event) (c : M A) :
  after t (after u c) = after (t ++ u) c.
Proof. unfold after; simpl. now rewrite app_assoc. Qed.

Lemma trace_after {A} (t : list event) (c : M A) :
  trace (after t c) = (t ++ trace c)%list.
Proof. reflexivity. Qed.

Lemma result_after {A} (t : list event) (c : M A) :
  result (after t c) = result c.
Proof. reflexivity. Qed.

Lemma requests_app (t u : list event) :
  requests (t ++ u) = (requests t ++ requests u)%list.
Proof.
  induction t as [|ev t IH]; simpl; [reflexivity|].
  destruct ev; simpl; now rewrite ?IH.
Qed.

Lemma count_quit_app (t u : list event) :
  count_quit (t ++ u) = count_quit t + count_quit u.
Proof.
  induction t as [|ev t IH]; simpl; [reflexivity|].
  destruct ev; simpl; now rewrite ?IH.
Qed.

Lemma requests_verbose (verbose : bool) (data : json) :
  requests (verbose_events verbose data) = [].
Proof. now destruct verbose. Qed.

(** ** Dictionaries *)

Lemma dict_get_set (k : string) (v : json) (d : dict) :
  dict_get k (dict_set k v d) = Some v.
Proof.
  induction d as [|[k' v'] d IH]; simpl.
  - now rewrite String.eqb_refl.
  - destruct (String.eqb k k') eqn:E; simpl; rewrite ?String.eqb_refl, ?E; auto.
Qed.

Lemma dict_get_set_other (k k' : string) (v : json) (d : dict) :
  k' <> k -> dict_get k' (dict_set k v d) = dict_get k' d.
Proof.
  intros Hne. induction d as [|[k0 v0] d IH]; simpl.
  - destruct (String.eqb_spec k' k); congruence.
  - destruct (String.eqb_spec k k0) as [->|]; simpl.
    + destruct (String.eqb_spec k' k0); congruence.
    + now rewrite IH.
Qed.

(** ** The collection loop *)

Lemma results_array_inv (data : json) (items : list json) :
  results_array data = Some items ->
  exists fields, data = JObj fields /\
                 dict_get "results" fields = Some (JArr items).
Proof.
  destruct data as [| | | | | |fields]; simpl; try discriminate.
  destruct (dict_get "results" fields) as [[]|] eqn:E; try discriminate.
  intros [= ->]. now exists fields.
Qed.

(** One turn of the loop on a response that carries a results array. *)
Lemma fetch_loop_page (data : json) (items : list json) (script : provider)
      (verbose : bool) (params : dict) (places : list json) (tok : json) :
  results_array data = Some items ->
  fetch_loop (Reply data :: script) verbose params places tok =
  after (EvRequest PLACES_URL (next_params params tok)
           :: verbose_events verbose data)
        (if truthy (continuation_cursor data)
         then after [EvSleep 2]
                (fetch_loop script verbose (next_params params tok)
                            (places ++ items) (continuation_cursor data))
         else ret (places ++ items)%list).
Proof.
  intros H. apply results_array_inv in H as (fields & -> & Hres).
  cbn [fetch_loop]. fold (next_params params tok).
  rewrite bind_tell.
  assert (Hin : py_contains "results" (JObj fields) = Ok true).
  { cbn [py_contains]. unfold dict_in. now rewrite Hres. }
  assert (Hget : py_getitem (JObj fields) "results" = Ok (JArr items)).
  { cbn [py_getitem]. now rewrite Hres. }
  assert (Hcur : py_get (JObj fields) "next_page_token" JNull
                 = Ok (continuation_cursor (JObj fields))).
  { cbn [py_get continuation_cursor].
    now destruct (dict_get "next_page_token" fields). }
  rewrite Hin, Hget, Hcur. cbn [py_iter].
  set (c := continuation_cursor (JObj fields)).
  unfold after, bind, tell, lift, ret.
  destruct verbose, (truthy c); cbn; try reflexivity;
    match goal with
    | |- context [fetch_loop ?s ?v ?p ?a ?k] =>
        now destruct (fetch_loop s v p a k)
    end.
Qed.

(** One turn of the loop on a response object without results. *)
Lemma fetch_loop_no_results (data : json) (script : provider)
      (verbose : bool) (params : dict) (places : list json) (tok : json) :
  lacks_results data ->
  fetch_loop (Reply data :: script) verbose params places tok =
  ((EvRequest PLACES_URL (next_params params tok)
      :: verbose_events verbose data ++ [EvLogError data])%list,
   Ok places).
Proof.
  destruct data as [| | | | | |fields]; simpl; try contradiction.
  intros Hres. fold (next_params params tok). unfold dict_in. rewrite Hres.
  now destruct verbose.
Qed.

(** A run of pages that each carry results and a cursor is consumed
    whole; the loop then goes on with the rest of the script. *)
Lemma fetch_loop_pages (pages : list json) :
  forall (script : provider) (verbose : bool) (params : dict)
         (places : list json) (tok : json),
    Forall has_results_array pages ->
    Forall has_cursor pages ->
    fetch_loop (map Reply pages ++ script) verbose params places tok =
    after (pages_trace verbose params tok pages)
          (fetch_loop script verbose (params_after params tok pages)
                      (places ++ all_results pages)
                      (cursor_after tok pages)).
Proof.
  induction pages as [|data pages IH]; intros script verbose params places tok
                                              Hres Hcur.
  - cbn. now rewrite app_nil_r, after_nil.
  - inversion Hres as [|? ? Hd Hres']; subst.
    inversion Hcur as [|? ? Hc Hcur']; subst.
    unfold has_results_array in Hd.
    destruct (results_array data) as [items|] eqn:E; [|congruence].
    cbn [map app]. rewrite (fetch_loop_page _ items) by assumption.
    unfold has_cursor in Hc. rewrite Hc.
    rewrite IH by assumption. rewrite !after_after.
    cbn [pages_trace params_after cursor_after all_results flat_map].
    rewrite E. fold (all_results pages).
    now rewrite <- !app_assoc.
Qed.

Lemma requests_pages_trace (pages : list json) :
  forall (verbose : bool) (params : dict) (tok : json),
    length (requests (pages_trace verbose params tok pages)) = length pages.
Proof.
  induction pages as [|data pages IH]; intros; cbn; [reflexivity|].
  rewrite requests_app, requests_verbose. cbn. now rewrite IH.
Qed.

Lemma all_results_app (pages pages' : list json) :
  all_results (pages ++ pages') = (all_results pages ++ all_results pages')%list.
Proof. apply flat_map_app. Qed.

(** Whatever the script holds, a turn of the loop starts by issuing its
    request. *)
Lemma fetch_loop_starts (script : provider) (verbose : bool) (params : dict)
      (places : list json) (tok : json) :
  exists t,
    trace (fetch_loop script verbose params places tok)
    = EvRequest PLACES_URL (next_params params tok) :: t.
Proof.
  destruct script as [|r script]; cbn [fetch_loop];
    fold (next_params params tok); rewrite bind_tell;
    unfold trace, after; cbn; eexists; reflexivity.
Qed.

(** C1: when every response carries a [results] array, [fetch_places]
    returns the entries of all pages that arrived, concatenated in arrival
    order with each page's own order kept and nothing removed.  The pages
    that arrive are those up to the first one without a cursor: one request
    is issued for each of them and none after. *)
Theorem fetch_places_concatenates_pages
        (API_KEY : string) (pages : list json) (final : json) (rest : provider)
        (lat lng : pyfloat) (radius : Z) (types : option string)
        (verbose : bool) :
  Forall has_results_array (pages ++ [final]) ->
  Forall has_cursor pages ->
  ~ has_cursor final ->
  let run := fetch_places API_KEY (map Reply (pages ++ [final]) ++ rest)
                          lat lng radius types verbose in
  result run = Ok (all_results (pages ++ [final])) /\
  length (requests (trace run)) = length (pages ++ [final]).
Proof.
  intros Hres Hcur Hlast run. subst run. unfold fetch_places.
  apply Forall_app in Hres as [Hres Hfin].
  inversion Hfin as [|? ? Hf _]; subst.
  unfold has_results_array in Hf.
  destruct (results_array final) as [items|] eqn:E; [|congruence].
  rewrite map_app, <- app_assoc. cbn [map app].
  rewrite fetch_loop_pages by assumption.
  rewrite (fetch_loop_page _ items) by assumption.
  unfold has_cursor in Hlast.
  destruct (truthy (continuation_cursor final)); [congruence|].
  rewrite after_after. unfold result, trace, after, ret. cbn [fst snd].
  split.
  - rewrite all_results_app. cbn [all_results flat_map]. rewrite E.
    now rewrite !app_nil_r.
  - rewrite app_nil_r, !requests_app. cbn [requests].
    rewrite requests_verbose, !length_app, requests_pages_trace. reflexivity.
Qed.

(** C4: when a response lacks the [results] field, [fetch_places] stops
    there: it returns exactly the entries of the earlier pages (none when
    it was the first response), logs the response, and the request that
    brought it is the last one issued. *)
Theorem fetch_places_stops_without_results
        (API_KEY : string) (pages : list json) (bad : json) (rest : provider)
        (lat lng : pyfloat) (radius : Z) (types : option string)
        (verbose : bool) :
  Forall has_results_array pages ->
  Forall has_cursor pages ->
  lacks_results bad ->
  let run := fetch_places API_KEY (map Reply pages ++ Reply bad :: rest)
                          lat lng radius types verbose in
  result run = Ok (all_results pages) /\
  (pages = [] -> result run = Ok []) /\
  length (requests (trace run)) = S (length pages) /\
  exists t, trace run = (t ++ [EvLogError bad])%list.
Proof.
  intros Hres Hcur Hbad run. subst run. unfold fetch_places.
  rewrite fetch_loop_pages by assumption.
  rewrite fetch_loop_no_results by assumption.
  unfold result, trace, after. cbn [fst snd app].
  repeat split.
  - now intros ->.
  - rewrite requests_app. cbn [requests]. rewrite requests_app.
    rewrite requests_verbose, length_app, requests_pages_trace.
    cbn. lia.
  - eexists. rewrite app_comm_cons, app_assoc. reflexivity.
Qed.

(** C6 (as amended): when a response carries a [results] array and a
    non-empty continuation cursor, [fetch_places] sleeps two seconds, the
    delay the provider asks for, and directly after issues one more request
    whose [pagetoken] parameter is that cursor. *)
Theorem fetch_places_follows_cursor
        (API_KEY : string) (pages : list json) (data : json) (rest : provider)
        (lat lng : pyfloat) (radius : Z) (types : option string)
        (verbose : bool) :
  Forall has_results_array pages ->
  Forall has_cursor pages ->
  has_results_array data ->
  has_cursor data ->
  let run := fetch_places API_KEY (map Reply pages ++ Reply data :: rest)
                          lat lng radius types verbose in
  exists (t1 t2 : list event) (params : dict),
    trace run = (t1 ++ [EvSleep 2; EvRequest PLACES_URL params] ++ t2)%list /\
    length (requests t1) = S (length pages) /\
    dict_get "pagetoken" params = Some (continuation_cursor data).
Proof.
  intros Hres Hcur Hd Hc run. subst run. unfold fetch_places.
  rewrite fetch_loop_pages by assumption.
  unfold has_results_array in Hd.
  destruct (results_array data) as [items|] eqn:E; [|congruence].
  rewrite (fetch_loop_page _ items) by assumption.
  unfold has_cursor in Hc. rewrite Hc. rewrite !after_after.
  match goal with
  | |- context [fetch_loop rest ?v ?p ?a ?k] =>
      destruct (fetch_loop_starts rest v p a k) as [t2 Ht2];
      unfold trace in *; cbn [fst after]; rewrite Ht2
  end.
  match goal with
  | |- exists _ _ _, (?a ++ [EvSleep 2]) ++ EvRequest _ ?p :: _ = _ /\ _ =>
      exists a, t2, p
  end.
  split; [|split].
  - now rewrite <- app_assoc.
  - rewrite requests_app. cbn [requests].
    rewrite requests_verbose, length_app, requests_pages_trace. cbn. lia.
  - unfold next_params at 1. rewrite Hc. apply dict_get_set.
Qed.

Lemma fetch_places_concatenates_pages_witness :
  let run := fetch_places "KEY" [Reply first_page; Reply mock_places_response]
                          sample_lat sample_lng 1000 (Some "hospital") false in
  result run
  = Ok [test_hospital; JObj [("place_id", JStr "abc")]; test_hospital] /\
  List.length (requests (trace run)) = 2.
Proof.
  apply (fetch_places_concatenates_pages
           "KEY" [first_page] mock_places_response []
           sample_lat sample_lng 1000 (Some "hospital") false).
  - repeat constructor; discriminate.
  - repeat constructor.
  - discriminate.
Defined.

Lemma fetch_places_stops_without_results_witness :
  let run := fetch_places "KEY"
                          [Reply first_page; Reply cursor_without_results;
                           Reply mock_places_response]
                          sample_lat sample_lng 1000 None false in
  result run = Ok [test_hospital; JObj [("place_id", JStr "abc")]] /\
  ([first_page] = [] -> result run = Ok []) /\
  List.length (requests (trace run)) = 2 /\
  exists t, trace run = t ++ [EvLogError cursor_without_results].
Proof.
  apply (fetch_places_stops_without_results
           "KEY" [first_page] cursor_without_results
           [Reply mock_places_response]
           sample_lat sample_lng 1000 None false).
  - repeat constructor; discriminate.
  - repeat constructor.
  - reflexivity.
Defined.

Lemma fetch_places_follows_cursor_witness :
  let run := fetch_places "KEY" [Reply first_page; Reply mock_places_response]
                          sample_lat sample_lng 1000 None false in
  exists (t1 t2 : list event) (params : dict),
    trace run = t1 ++ [EvSleep 2; EvRequest PLACES_URL params] ++ t2 /\
    List.length (requests t1) = 1 /\
    dict_get "pagetoken" params = Some (JStr "tok1").
Proof.
  apply (fetch_places_follows_cursor
           "KEY" [] first_page [Reply mock_places_response]
           sample_lat sample_lng 1000 None false).
  - constructor.
  - constructor.
  - discriminate.
  - reflexivity.
Defined.

(** C6 (as stated) fails on a response that carries a cursor but no
    [results] field: the loop logs the response and stops, so the only
    request issued is the first one and no request carries the cursor. *)
Lemma fetch_places_ignores_cursor_without_results :
  let run := fetch_places "KEY"
                          [Reply cursor_without_results;
                           Reply mock_places_response]
                          sample_lat sample_lng 1000 None false in
  has_cursor cursor_without_results /\
  trace run
  = [ EvRequest PLACES_URL
                (base_params "KEY" sample_lat sample_lng 1000 None);
      EvLogError cursor_without_results ] /\
  result run = Ok [].
Proof. repeat split. Qed.

(** ** Results and traces of composed runs *)

Lemma result_bind {A B} (c : M A) (k : A -> M B) :
  result (bind c k)
  = match result c with
    | Ok a => result (k a)
    | Raise e => Raise e
    end.
Proof. destruct c as [t [a|e]]; cbn; [destruct (k a)|]; reflexivity. Qed.

Lemma trace_bind {A B} (c : M A) (k : A -> M B) :
  trace (bind c k)
  = trace c ++ match result c with
               | Ok a => trace (k a)
               | Raise _ => []
               end.
Proof.
  destruct c as [t [a|e]]; cbn; [destruct (k a)|]; cbn;
    now rewrite ?app_nil_r.
Qed.

Lemma count_quit_bind {A B} (c : M A) (k : A -> M B) :
  count_quit (trace c) = 0 ->
  (forall a, count_quit (trace (k a)) = 0) ->
  count_quit (trace (bind c k)) = 0.
Proof.
  intros Hc Hk. rewrite trace_bind, count_quit_app, Hc.
  destruct (result c); [apply Hk | reflexivity].
Qed.

(** One step into a sequence of commands, on its result. *)
Ltac run_step :=
  rewrite result_bind; cbn [result lift tell ret snd]; cbv beta iota.

Ltac no_quit :=
  repeat (apply count_quit_bind; [try reflexivity | intros]);
  try reflexivity.

(** ** The scraper *)

Lemma parse_review_trace (review : WebElement) :
  trace (parse_review review) = [].
Proof.
  unfold parse_review. rewrite !trace_bind. cbn.
  repeat match goal with
         | |- context [match ?o with Ok _ => _ | Raise _ => _ end] =>
             destruct o; cbn
         end; reflexivity.
Qed.

Lemma parse_loop_trace (review_elements : list WebElement) :
  forall reviews, trace (parse_loop review_elements reviews) = [].
Proof.
  induction review_elements as [|review rest IH]; intros reviews;
    cbn [parse_loop].
  - reflexivity.
  - rewrite trace_bind, parse_review_trace.
    destruct (result (parse_review review)); [apply IH | reflexivity].
Qed.

Lemma scroll_loop_no_quit (driver : WebDriver) (panel : WebElement) (n : nat) :
  forall done, count_quit (trace (scroll_loop driver panel done n)) = 0.
Proof.
  induction n as [|n IH]; intros done; cbn [scroll_loop]; [reflexivity|].
  no_quit. apply IH.
Qed.

(** Nothing inside the [try:] block quits the driver. *)
Lemma extract_reviews_no_quit (driver : WebDriver) :
  count_quit (trace (extract_reviews driver)) = 0.
Proof.
  unfold extract_reviews. no_quit;
    solve [apply scroll_loop_no_quit | now rewrite parse_loop_trace].
Qed.

Lemma console_print_ok (markup : console) (msg : string) :
  markup msg = Ok tt ->
  console_print markup msg = tell (EvPrint msg).
Proof. intros H. unfold console_print. now rewrite H, bind_lift_ok. Qed.

Lemma console_print_raise (markup : console) (msg : string) (e : exn) :
  markup msg = Raise e ->
  console_print markup msg = ([], Raise e).
Proof. intros H. unfold console_print. now rewrite H. Qed.

(** Once the page is open, [scrape_reviews] is its [try:] block and
    then, when the block raised, the error report and [driver.quit()],
    or the exception of the console when it refuses the report; when
    the block did not raise, [driver.quit()]. *)
Lemma scrape_reviews_launched
      (markup : console) (driver : WebDriver) (place_id : string) :
  markup (opening_line place_id) = Ok tt ->
  get driver (place_url place_id) = Ok tt ->
  scrape_reviews markup (Ok driver) place_id
  = match extract_reviews driver with
    | (t, Ok reviews) => (opening place_id ++ t ++ [EvQuit], Ok reviews)
    | (t, Raise e) =>
        match markup (error_line e) with
        | Ok _ =>
            (opening place_id ++ t ++ [error_report e; EvQuit], Ok [])
        | Raise e' => (opening place_id ++ t, Raise e')
        end
    end.
Proof.
  intros Hopen Hget. unfold scrape_reviews.
  rewrite bind_tell, bind_lift_ok, (console_print_ok _ _ Hopen).
  rewrite bind_tell, bind_tell, Hget, bind_lift_ok, bind_tell.
  rewrite !after_after.
  destruct (extract_reviews driver) as [t [reviews|e]];
    unfold try_except, console_print, after, bind, tell, lift, ret,
      opening, error_report;
    cbn [fst snd app];
    [|destruct (markup (error_line e)) as [[]|e']];
    cbn; now rewrite <- ?app_assoc, ?app_nil_r.
Qed.

(** When launching the browser fails no driver exists: the exception
    leaves [scrape_reviews] at once. *)
Lemma scrape_reviews_launch_failure
      (markup : console) (e : exn) (place_id : string) :
  scrape_reviews markup (Raise e) place_id = ([EvLaunch], Raise e).
Proof. reflexivity. Qed.

(** When the console refuses the opening line, its exception leaves
    [scrape_reviews] before the page is asked for; the browser that was
    launched is not quit. *)
Lemma scrape_reviews_opening_refused
      (markup : console) (driver : WebDriver) (place_id : string) (e : exn) :
  markup (opening_line place_id) = Raise e ->
  scrape_reviews markup (Ok driver) place_id = ([EvLaunch], Raise e).
Proof.
  intros Hopen. unfold scrape_reviews.
  now rewrite bind_tell, bind_lift_ok, (console_print_raise _ _ e Hopen).
Qed.

(** When [driver.get] raises, the exception leaves [scrape_reviews]
    before the [try:] block is entered and [driver.quit()] is not
    reached. *)
Lemma scrape_reviews_navigation_failure
      (markup : console) (driver : WebDriver) (place_id : string) (e : exn) :
  markup (opening_line place_id) = Ok tt ->
  get driver (place_url place_id) = Raise e ->
  result (scrape_reviews markup (Ok driver) place_id) = Raise e /\
  count_quit (trace (scrape_reviews markup (Ok driver) place_id)) = 0.
Proof.
  intros Hopen Hget. unfold scrape_reviews.
  rewrite bind_tell, bind_lift_ok, (console_print_ok _ _ Hopen).
  rewrite bind_tell, bind_tell, Hget.
  split; reflexivity.
Qed.

Lemma scroll_loop_ok (driver : WebDriver) (panel : WebElement) (n : nat) :
  forall done,
    (forall i, i < done + n ->
               execute_script driver i SCROLL_TO_BOTTOM panel = Ok tt) ->
    result (scroll_loop driver panel done n) = Ok tt.
Proof.
  induction n as [|n IH]; intros done Hok; cbn [scroll_loop]; [reflexivity|].
  do 2 run_step. rewrite Hok by lia. run_step. apply IH.
  intros i Hi. apply Hok. lia.
Qed.

(** On a page whose panel loads, the [try:] block yields what the parse
    loop yields on the containers found. *)
Lemma extract_reviews_result (driver : WebDriver) (els : list WebElement) :
  panel_loaded driver ->
  find_elements driver CLASS_NAME "jftiEf" = Ok els ->
  result (extract_reviews driver) = result (parse_loop els []).
Proof.
  intros (button & panel & Hb & Hclick & Hp & Hscroll) Hels.
  pose proof (scroll_loop_ok driver panel 10 0 Hscroll) as Hs.
  unfold extract_reviews.
  repeat (run_step; rewrite ?Hb, ?Hclick, ?Hp, ?Hs, ?Hels; cbv beta iota).
  now destruct (result (parse_loop els [])).
Qed.

Lemma parse_review_well_formed (c : WebElement) (a : string) (n : nat)
      (b : string) :
  well_formed c a n b ->
  parse_review c = ([], Ok (mkReview a n b)).
Proof.
  intros (ea & stars & eb & Ha & Hat & Hs & Hn & Hb & Hbt).
  unfold parse_review.
  repeat (rewrite ?Ha, ?Hat, ?Hs, ?Hb, ?Hbt; rewrite bind_lift_ok).
  now rewrite Hn.
Qed.

Lemma parse_review_missing (c : WebElement) :
  missing_sub_element c ->
  exists e, result (parse_review c) = Raise e.
Proof.
  unfold parse_review.
  intros [[e He]|[e He]];
    repeat (run_step; rewrite ?He; cbv beta iota;
            try match goal with
                | |- context [match ?o with Ok _ => _ | Raise _ => _ end] =>
                    destruct o; [|solve [eauto]]
                end);
    eauto.
Qed.

(** A container that cannot be parsed makes the whole parse loop raise,
    whatever was collected before it. *)
Lemma parse_loop_raises (els : list WebElement) (c : WebElement) :
  In c els ->
  (exists e, result (parse_review c) = Raise e) ->
  forall reviews, exists e, result (parse_loop els reviews) = Raise e.
Proof.
  intros Hin Hc. induction els as [|x els IH]; intros reviews; [easy|].
  cbn [parse_loop]. rewrite result_bind.
  destruct (result (parse_review x)) as [r|e] eqn:E; [|eauto].
  destruct Hin as [->|Hin]; [destruct Hc; congruence | now apply IH].
Qed.

Lemma extract_reviews_raises (driver : WebDriver) (els : list WebElement)
      (c : WebElement) :
  find_elements driver CLASS_NAME "jftiEf" = Ok els ->
  In c els ->
  missing_sub_element c ->
  exists e, result (extract_reviews driver) = Raise e.
Proof.
  intros Hels Hin Hc.
  destruct (parse_loop_raises els c Hin (parse_review_missing c Hc) [])
    as [e He].
  unfold extract_reviews.
  repeat (run_step; rewrite ?Hels, ?He; cbv beta iota;
          try match goal with
              | |- context [match ?o with Ok _ => _ | Raise _ => _ end] =>
                  destruct o; [|solve [eauto]]
              end);
    eauto.
Qed.

Lemma scrape_reviews_caught
      (markup : console) (driver : WebDriver) (place_id : string) (e : exn) :
  markup (opening_line place_id) = Ok tt ->
  get driver (place_url place_id) = Ok tt ->
  result (extract_reviews driver) = Raise e ->
  markup (error_line e) = Ok tt ->
  scrape_reviews markup (Ok driver) place_id
  = (opening place_id ++ trace (extract_reviews driver)
       ++ [error_report e; EvQuit], Ok []).
Proof.
  intros Hopen Hget He Hreport.
  rewrite scrape_reviews_launched by assumption.
  destruct (extract_reviews driver) as [t [reviews|e']]; cbn in He;
    [discriminate|]. injection He as ->. now rewrite Hreport.
Qed.


Lemma great_place_well_formed :
  well_formed great_place "Ann" 5 "Great place!".
Proof.
  exists (leaf "Ann"), (repeat (leaf "") 5), (leaf "Great place!").
  repeat split.
Qed.

Lemma no_author_missing : missing_sub_element no_author.
Proof. left. eexists. reflexivity. Qed.

(** C2 (as amended): when the browser launches, the console prints the
    opening line, navigation succeeds and the console prints the error
    report of whatever the [try:] block raises, the driver is quit
    exactly once, as the last effect before [scrape_reviews] returns, on
    every path through the [try:] block (reviews parsed, reveal control
    not found, any other exception in it); when the launch itself fails
    there is no driver and nothing is quit. *)
Theorem scrape_reviews_quits_once
        (markup : console) (Chrome : browser) (place_id : string) :
  (forall driver,
      Chrome = Ok driver ->
      markup (opening_line place_id) = Ok tt /\
      get driver (place_url place_id) = Ok tt /\
      reports_rendered markup driver) ->
  match Chrome with
  | Ok _ =>
      exists t reviews,
        scrape_reviews markup Chrome place_id = (t ++ [EvQuit], Ok reviews) /\
        count_quit t = 0
  | Raise e => scrape_reviews markup Chrome place_id = ([EvLaunch], Raise e)
  end.
Proof.
  intros Hrun. destruct Chrome as [driver|e]; [|reflexivity].
  destruct (Hrun driver eq_refl) as (Hopen & Hget & Hreports).
  rewrite scrape_reviews_launched by assumption.
  pose proof (extract_reviews_no_quit driver) as Hq.
  unfold reports_rendered in Hreports.
  destruct (extract_reviews driver) as [t [reviews|e]];
    cbn in Hq; cbn [result snd] in Hreports.
  - exists (opening place_id ++ t), reviews.
    rewrite count_quit_app, Hq, <- app_assoc. now split.
  - rewrite (Hreports e eq_refl).
    exists (opening place_id ++ t ++ [error_report e]), [].
    rewrite !count_quit_app, Hq, <- !app_assoc. now split.
Qed.

Lemma scrape_reviews_quits_once_witness :
  exists t reviews,
    scrape_reviews sample_console (Ok (page (Ok tt) false [great_place]))
                   "test123"
    = (t ++ [EvQuit], Ok reviews) /\
    count_quit t = 0.
Proof.
  apply (scrape_reviews_quits_once
           sample_console (Ok (page (Ok tt) false [great_place])) "test123").
  intros driver Hd. injection Hd as <-.
  split; [reflexivity|]. split; [reflexivity|].
  intros e He. vm_compute in He. injection He as <-. reflexivity.
Defined.

(** C2 (as stated) fails when the launch or the navigation raises, and
    when the console refuses the opening line or the error report: the
    exception leaves [scrape_reviews] and [driver.quit()] is never
    called. *)
Lemma scrape_reviews_quit_not_reached :
  let launch_fails : browser :=
    Raise (WebDriverException "chromedriver not found") in
  let navigation_fails : browser :=
    Ok (page (Raise (WebDriverException "net::ERR_NAME_NOT_RESOLVED"))
             true [great_place]) in
  let loads : browser := Ok (page (Ok tt) true [great_place]) in
  let reveal_fails : browser := Ok (broken_page bad_tag) in
  (count_quit (trace (scrape_reviews sample_console launch_fails "test123"))
   = 0 /\
   result (scrape_reviews sample_console launch_fails "test123")
   = Raise (WebDriverException "chromedriver not found")) /\
  (count_quit
     (trace (scrape_reviews sample_console navigation_fails "test123")) = 0 /\
   result (scrape_reviews sample_console navigation_fails "test123")
   = Raise (WebDriverException "net::ERR_NAME_NOT_RESOLVED")) /\
  (count_quit (trace (scrape_reviews sample_console loads "[/x]")) = 0 /\
   exists msg,
     result (scrape_reviews sample_console loads "[/x]")
     = Raise (MarkupError msg)) /\
  (count_quit (trace (scrape_reviews sample_console reveal_fails "test123"))
   = 0 /\
   exists msg,
     result (scrape_reviews sample_console reveal_fails "test123")
     = Raise (MarkupError msg)).
Proof. repeat split; eexists; reflexivity. Qed.

(** C3 (as amended): when the browser launches, the console prints the
    opening line, navigation succeeds and the console prints the error
    report of whatever the [try:] block raises, [scrape_reviews] returns
    a list whatever the page does; an exception raised while revealing,
    scrolling or parsing is caught, reported on the console and turned
    into the empty list. *)
Theorem scrape_reviews_absorbs_page_errors
        (markup : console) (driver : WebDriver) (place_id : string) :
  markup (opening_line place_id) = Ok tt ->
  get driver (place_url place_id) = Ok tt ->
  reports_rendered markup driver ->
  let run := scrape_reviews markup (Ok driver) place_id in
  (exists reviews, result run = Ok reviews) /\
  (forall e, result (extract_reviews driver) = Raise e ->
             result run = Ok [] /\ In (error_report e) (trace run)).
Proof.
  intros Hopen Hget Hreports run. subst run. split.
  - rewrite scrape_reviews_launched by assumption.
    unfold reports_rendered in Hreports.
    destruct (extract_reviews driver) as [t [reviews|e]];
      cbn [result snd] in Hreports |- *; [eauto|].
    rewrite (Hreports e eq_refl). now exists [].
  - intros e He.
    rewrite (scrape_reviews_caught _ _ _ e) by auto.
    split; [reflexivity|]. unfold trace. cbn [fst].
    rewrite !in_app_iff. right. right. now left.
Qed.

Lemma scrape_reviews_absorbs_page_errors_witness :
  let run := scrape_reviews sample_console
                            (Ok (page (Ok tt) true [great_place; no_author]))
                            "test123" in
  (exists reviews, result run = Ok reviews) /\
  (forall e,
      result (extract_reviews (page (Ok tt) true [great_place; no_author]))
      = Raise e ->
      result run = Ok [] /\ In (error_report e) (trace run)).
Proof.
  apply (scrape_reviews_absorbs_page_errors
           sample_console (page (Ok tt) true [great_place; no_author])
           "test123").
  - reflexivity.
  - reflexivity.
  - intros e He. vm_compute in He. injection He as <-. reflexivity.
Defined.

(** C3 (as stated) fails when the launch or the navigation raises,
    which happen before the [try:] block, and when the console refuses
    the opening line or, inside the handler, the error report: the
    exception reaches the caller and no list is returned. *)
Lemma scrape_reviews_lets_launch_errors_escape :
  result (scrape_reviews sample_console
                         (Raise (WebDriverException "chromedriver not found"))
                         "test123")
  = Raise (WebDriverException "chromedriver not found") /\
  result (scrape_reviews
            sample_console
            (Ok (page (Raise (WebDriverException "net::ERR_NAME_NOT_RESOLVED"))
                      true [great_place]))
            "test123")
  = Raise (WebDriverException "net::ERR_NAME_NOT_RESOLVED") /\
  (exists msg,
      result (scrape_reviews sample_console
                             (Ok (page (Ok tt) true [great_place])) "[/x]")
      = Raise (MarkupError msg)) /\
  (result (extract_reviews (broken_page bad_tag)) = Raise bad_tag /\
   exists msg,
     result (scrape_reviews sample_console (Ok (broken_page bad_tag))
                            "test123")
     = Raise (MarkupError msg)).
Proof. repeat split; eexists; reflexivity. Qed.

(** C5 (as amended): when a review container among those found lacks
    its author or its body element, the whole extraction is given up:
    the [try:] block raises, and the handler of the invocation makes
    [scrape_reviews] return the empty list, without the reviews of the
    other containers (or raise, when the console refuses the error
    report). *)
Theorem scrape_reviews_missing_sub_element
        (markup : console) (driver : WebDriver) (place_id : string)
        (els : list WebElement) (c : WebElement) :
  markup (opening_line place_id) = Ok tt ->
  get driver (place_url place_id) = Ok tt ->
  find_elements driver CLASS_NAME "jftiEf" = Ok els ->
  In c els ->
  missing_sub_element c ->
  exists e,
    result (extract_reviews driver) = Raise e /\
    result (scrape_reviews markup (Ok driver) place_id)
    = match markup (error_line e) with
      | Ok _ => Ok []
      | Raise e' => Raise e'
      end.
Proof.
  intros Hopen Hget Hels Hin Hc.
  destruct (extract_reviews_raises driver els c Hels Hin Hc) as [e He].
  exists e. split; [assumption|].
  rewrite scrape_reviews_launched by assumption.
  destruct (extract_reviews driver) as [t [reviews|e0]]; cbn in He;
    [discriminate|]. injection He as ->.
  now destruct (markup (error_line e)).
Qed.

Lemma scrape_reviews_missing_sub_element_witness :
  exists e,
    result (extract_reviews (page (Ok tt) true [great_place; no_author]))
    = Raise e /\
    result (scrape_reviews sample_console
                           (Ok (page (Ok tt) true [great_place; no_author]))
                           "test123")
    = match sample_console (error_line e) with
      | Ok _ => Ok []
      | Raise e' => Raise e'
      end.
Proof.
  apply (scrape_reviews_missing_sub_element
           sample_console (page (Ok tt) true [great_place; no_author])
           "test123" [great_place; no_author] no_author).
  - reflexivity.
  - reflexivity.
  - reflexivity.
  - right. left. reflexivity.
  - left. exists (no_such_element "d4r55"). reflexivity.
Defined.

(** C5 (as stated) fails: with a well-formed container followed by one
    without author, the review of the first is parsed and then dropped;
    the caller gets the empty list. *)
Lemma scrape_reviews_drops_parsed_reviews :
  well_formed great_place "Ann" 5 "Great place!" /\
  missing_sub_element no_author /\
  result (parse_loop [great_place] [])
  = Ok [mkReview "Ann" 5 "Great place!"] /\
  result (scrape_reviews sample_console
                         (Ok (page (Ok tt) true [great_place; no_author]))
                         "test123")
  = Ok [].
Proof.
  split; [apply great_place_well_formed|].
  split; [apply no_author_missing|]. split; reflexivity.
Qed.









(** ** The table of places *)

Section DisplayPlacesProperties.

Variable repr_container : json -> string.

(** Building a row performs no effect. *)
Lemma place_row_trace (place : json) :
  trace (place_row repr_container place) = [].
Proof.
  unfold place_row. rewrite !trace_bind. cbn.
  repeat match goal with
         | |- context [match ?o with Ok _ => _ | Raise _ => _ end] =>
             destruct o; cbn
         end; reflexivity.
Qed.

Lemma rows_loop_trace (places : list json) :
  forall rows, trace (rows_loop repr_container places rows) = [].
Proof.
  induction places as [|place rest IH]; intros rows;
    cbn [rows_loop]; [reflexivity|].
  rewrite trace_bind, place_row_trace.
  destruct (result (place_row repr_container place));
    [apply IH | reflexivity].
Qed.

(** The row of a well-shaped record that has its identifier. *)
Lemma place_row_ok (place : json) :
  place_record place = true ->
  has_place_id place = true ->
  place_row repr_container place
  = ([], Ok (expected_row repr_container place)).
Proof.
  destruct place as [| | | | | |fields]; try discriminate.
  unfold place_record, has_place_id, place_location.
  cbn [place_field is_obj andb]. intros Hrec Hid.
  apply andb_true_iff in Hrec as [Hrec Hloc].
  apply andb_true_iff in Hrec as [Hrec Hgeo].
  apply andb_true_iff in Hrec as [Hname Hpid].
  unfold place_row, expected_row, place_coord, place_location.
  cbn [place_field py_get py_getitem].
  destruct (dict_get "place_id" fields) as [[| | | |pid| |]|];
    try discriminate.
  destruct (dict_get "name" fields) as [[| | | |name| |]|];
    try discriminate;
    (destruct (dict_get "geometry" fields) as [[| | | | | |gfields]|];
     try discriminate);
    cbn in *;
    try (destruct (dict_get "location" gfields) as [[| | | | | |lfields]|];
         try discriminate; cbn);
    repeat match goal with
           | |- context [dict_get ?k ?d] => destruct (dict_get k d); cbn
           end;
    reflexivity.
Qed.

(** Without identifier no row is built: the lookup raises, or one of
    the earlier ones did. *)
Lemma place_row_no_id (place : json) :
  has_place_id place = false ->
  exists e, result (place_row repr_container place) = Raise e.
Proof.
  unfold has_place_id, place_row. intros Hid.
  assert (Hget : exists e, py_getitem place "place_id" = Raise e).
  { destruct place; cbn in *; eauto.
    destruct (dict_get "place_id" fields); [discriminate | eauto]. }
  destruct Hget as [e He].
  repeat (run_step; rewrite ?He; cbv beta iota;
          try match goal with
              | |- context [match ?o with Ok _ => _ | Raise _ => _ end] =>
                  destruct o; [|solve [eauto]]
              end);
    eauto.
Qed.

Lemma rows_loop_ok (places : list json) :
  forall rows,
    Forall (fun place => place_record place = true) places ->
    forallb has_place_id places = true ->
    rows_loop repr_container places rows
    = ([], Ok (rows ++ map (expected_row repr_container) places)).
Proof.
  induction places as [|place rest IH]; intros rows Hrec Hids;
    cbn [rows_loop map].
  - now rewrite app_nil_r.
  - inversion Hrec as [|? ? Hp Hrest]; subst.
    cbn [forallb] in Hids. apply andb_true_iff in Hids as [Hid Hids].
    rewrite place_row_ok, bind_run, after_nil by assumption.
    rewrite IH by assumption. now rewrite <- app_assoc.
Qed.

Lemma rows_loop_raises (places : list json) :
  forall rows,
    forallb has_place_id places = false ->
    exists e, rows_loop repr_container places rows = ([], Raise e).
Proof.
  induction places as [|place rest IH]; intros rows Hids;
    cbn [rows_loop forallb] in *; [discriminate|].
  pose proof (place_row_trace place) as Ht.
  destruct (place_row repr_container place) as [t [row|e]] eqn:E;
    cbn in Ht; subst t.
  - rewrite bind_run, after_nil.
    destruct (has_place_id place) eqn:Hid; [now apply IH|].
    destruct (place_row_no_id place Hid) as [e He].
    rewrite E in He. discriminate.
  - rewrite bind_raise. eauto.
Qed.

(** The console prints a table whose cells it accepts. *)
Lemma render_all_ok (markup : console) (cells : list string) :
  Forall (fun cell => markup cell = Ok tt) cells ->
  render_all markup cells = Ok tt.
Proof.
  induction 1 as [|cell rest Hcell _ IH]; cbn [render_all];
    [reflexivity | now rewrite Hcell].
Qed.

(** A refused cell ends the printing. *)
Lemma render_all_refused (markup : console) (cells : list string) :
  Exists (fun cell => exists e, markup cell = Raise e) cells ->
  exists e, render_all markup cells = Raise e.
Proof.
  induction 1 as [cell rest [e He]|cell rest _ IH]; cbn [render_all].
  - rewrite He. eauto.
  - destruct (markup cell); eauto.
Qed.

Lemma print_table_run (markup : console) (title : string)
      (columns : list string) (rows : list (list string)) :
  print_table markup title columns rows
  = match render_all markup (table_cells columns rows) with
    | Ok _ => ([EvPrintTable title columns rows], Ok tt)
    | Raise e => ([], Raise e)
    end.
Proof.
  unfold print_table.
  now destruct (render_all markup (table_cells columns rows)) as [[]|e].
Qed.

(** C10 (as amended): for place records of the provider's shape
    (name and identifier strings, geometry and location objects,
    each possibly missing), [display_places] prints one row per record
    when every record has its ['place_id'] and the console accepts the
    text of every cell, with ["N/A"] in place of a missing name, rating,
    latitude or longitude; when the console refuses a cell, or when some
    record lacks ['place_id'], it raises and prints nothing. *)
Theorem display_places_rows (markup : console) (places : list json) :
  Forall (fun place => place_record place = true) places ->
  let rows := map (expected_row repr_container) places in
  if forallb has_place_id places
  then display_places repr_container markup places
       = match render_all markup (table_cells COLUMNS rows) with
         | Ok _ => ([EvPrintTable "Places Found" COLUMNS rows], Ok tt)
         | Raise e => ([], Raise e)
         end
  else exists e, display_places repr_container markup places = ([], Raise e).
Proof.
  intros Hrec rows. subst rows. unfold display_places.
  destruct (forallb has_place_id places) eqn:Hids.
  - rewrite rows_loop_ok by assumption.
    rewrite bind_run, after_nil. apply print_table_run.
  - destruct (rows_loop_raises places [] Hids) as [e He].
    rewrite He, bind_raise. eauto.
Qed.

End DisplayPlacesProperties.

Lemma display_places_rows_witness :
  display_places sample_repr sample_console
                 [test_hospital; JObj [("place_id", JStr "abc")]]
  = ([EvPrintTable
        "Places Found" COLUMNS
        [ ["Test Hospital"; "4.5"; "test123"; "40.7128"; "-74.006"];
          ["N/A"; "N/A"; "abc"; "N/A"; "N/A"] ]],
     Ok tt).
Proof.
  apply (display_places_rows
           sample_repr sample_console
           [test_hospital; JObj [("place_id", JStr "abc")]]).
  repeat constructor.
Defined.

(** C10 (as stated) fails on a record that has its ['place_id'] but
    whose geometry is [null]: [place.get("geometry", {})] gives [None],
    and the following [.get] raises.  It fails too on a record of the
    provider's shape whose name is not well-formed console markup: the
    console refuses the cell and no table is printed. *)
Lemma display_places_null_geometry :
  (has_place_id place_null_geometry = true /\
   display_places sample_repr sample_console [place_null_geometry]
   = ([], Raise (AttributeError "object has no attribute 'get'"))) /\
  (has_place_id place_named_by_tag = true /\
   place_record place_named_by_tag = true /\
   exists msg,
     display_places sample_repr sample_console [place_named_by_tag]
     = ([], Raise (MarkupError msg))).
Proof. repeat split. eexists. reflexivity. Qed.


(** * Further properties *)

(** ** The query *)

Lemma split_not_nil (sep : ascii) (s : string) : split sep s <> [].
Proof.
  induction s as [|c rest IH]; cbn [split]; [discriminate|].
  destruct (Ascii.eqb c sep); [discriminate|].
  destruct (split sep rest); discriminate.
Qed.

Lemma concat_cons_char (sep : string) (c : ascii) (w : string)
      (ws : list string) :
  String.concat sep (String c w :: ws) = String c (String.concat sep (w :: ws)).
Proof. destruct ws; reflexivity. Qed.

(** Splitting at the commas and joining with pipes replaces every comma
    by a pipe and touches nothing else. *)
Lemma join_split_pipe (t : string) :
  String.concat "|" (split "," t) = pipe_for_comma t.
Proof.
  induction t as [|c rest IH]; [reflexivity|].
  cbn [split pipe_for_comma].
  destruct (Ascii.eqb c ",") eqn:E.
  - destruct (split "," rest) as [|w ws] eqn:Es;
      [now apply split_not_nil in Es|].
    cbn [String.concat] in *. now rewrite IH.
  - destruct (split "," rest) as [|w ws] eqn:Es;
      [now apply split_not_nil in Es|].
    now rewrite concat_cons_char, IH.
Qed.

(** X1: the [type] parameter of the query is the category filter with
    every comma replaced by a pipe and nothing else changed; without a
    filter, or with an empty one, the query has no [type] parameter. *)
Theorem base_params_type
        (API_KEY : string) (lat lng : pyfloat) (radius : Z)
        (types : option string) :
  dict_get "type" (base_params API_KEY lat lng radius types)
  = match types with
    | Some t => if String.eqb t "" then None
                else Some (JStr (pipe_for_comma t))
    | None => None
    end.
Proof.
  unfold base_params. destruct types as [t|]; [|reflexivity].
  cbn [truthy]. destruct (String.eqb t ""); cbn [negb]; [reflexivity|].
  now rewrite dict_get_set, join_split_pipe.
Qed.

(** ** Every turn of the collection loop *)

(** What one turn of the loop does with any answer: the answer is an
    exception, or the loop stops on it, or it goes on after a sleep. *)
Lemma fetch_loop_turn (r : reply) (script : provider) (verbose : bool)
      (params : dict) (places : list json) (tok : json) :
  (exists e, r = Fails e /\
     fetch_loop (r :: script) verbose params places tok
     = ([EvRequest PLACES_URL (next_params params tok)], Raise e)) \/
  (exists data tail o, r = Reply data /\
     (tail = [] \/ tail = [EvLogError data]) /\
     fetch_loop (r :: script) verbose params places tok
     = (EvRequest PLACES_URL (next_params params tok)
          :: verbose_events verbose data ++ tail, o)) \/
  (exists data items, r = Reply data /\
     truthy (continuation_cursor data) = true /\
     fetch_loop (r :: script) verbose params places tok
     = after (EvRequest PLACES_URL (next_params params tok)
                :: verbose_events verbose data ++ [EvSleep 2])
             (fetch_loop script verbose (next_params params tok)
                         (places ++ items) (continuation_cursor data))).
Proof.
  destruct r as [data|e]; [right | left; eexists; split; reflexivity].
  cbn [fetch_loop]. fold (next_params params tok). rewrite bind_tell.
  assert (Hv : forall (k : unit -> M (list json)),
             bind (if verbose
                   then tell (EvPrint
                                "[bold green]Raw API Response:[/bold green]")
                        ;;; tell (EvPrintJson data)
                   else ret tt) k
             = after (verbose_events verbose data) (k tt)).
  { intros k. unfold bind, tell, ret, after.
    destruct verbose; cbn; now destruct (k tt). }
  rewrite Hv, after_after. cbn [app].
  destruct (py_contains "results" data) as [[|]|e] eqn:Hin.
  - rewrite bind_lift_ok.
    destruct (py_getitem data "results") as [results|e] eqn:Hget;
      [rewrite bind_lift_ok | left; exists data, [], (Raise e)].
    + destruct (py_iter results) as [items|e] eqn:Hit;
        [rewrite bind_lift_ok | left; exists data, [], (Raise e)].
      * assert (Hobj : exists fields, data = JObj fields).
        { destruct data; cbn in Hget; try discriminate. eauto. }
        destruct Hobj as [fields ->].
        assert (Hcur : py_get (JObj fields) "next_page_token" JNull
                       = Ok (continuation_cursor (JObj fields))).
        { cbn [py_get continuation_cursor].
          now destruct (dict_get "next_page_token" fields). }
        rewrite Hcur, bind_lift_ok.
        destruct (truthy (continuation_cursor (JObj fields))) eqn:Ht;
          cbn [negb].
        -- right. exists (JObj fields), items. split; [reflexivity|].
           split; [assumption|]. now rewrite bind_tell, after_after.
        -- left. exists (JObj fields), [], (Ok (places ++ items)).
           split; [reflexivity|]. split; [now left|].
           unfold after, ret. cbn. now rewrite ?app_nil_r.
      * split; [reflexivity|]. split; [now left|].
        rewrite bind_lift_raise. unfold after. cbn. now rewrite ?app_nil_r.
    + split; [reflexivity|]. split; [now left|].
      rewrite bind_lift_raise. unfold after. cbn. now rewrite ?app_nil_r.
  - left. exists data, [EvLogError data], (Ok places).
    split; [reflexivity|]. split; [now right|].
    rewrite bind_lift_ok, bind_tell. unfold after, ret. cbn.
    now rewrite ?app_nil_r.
  - left. exists data, [], (Raise e).
    split; [reflexivity|]. split; [now left|].
    rewrite bind_lift_raise. unfold after. cbn. now rewrite ?app_nil_r.
Qed.

Lemma fetch_loop_exhausted (verbose : bool) (params : dict)
      (places : list json) (tok : json) :
  fetch_loop [] verbose params places tok
  = ([EvRequest PLACES_URL (next_params params tok)],
     Raise (RequestException "no answer")).
Proof. reflexivity. Qed.

Lemma slept_app (t u : list event) : slept (t ++ u) = slept t + slept u.
Proof.
  induction t as [|ev t IH]; cbn [app slept]; [reflexivity|].
  destruct ev; rewrite ?IH; lia.
Qed.

Lemma slept_verbose (verbose : bool) (data : json) :
  slept (verbose_events verbose data) = 0.
Proof. now destruct verbose. Qed.

Lemma dict_set_set (k : string) (v v' : json) (d : dict) :
  dict_set k v (dict_set k v' d) = dict_set k v d.
Proof.
  induction d as [|[k0 v0] d IH]; cbn [dict_set].
  - now rewrite String.eqb_refl.
  - destruct (String.eqb k k0) eqn:E; cbn [dict_set]; rewrite ?String.eqb_refl, ?E;
      [reflexivity | now rewrite IH].
Qed.

Lemma follow_up_next (base params : dict) (tok : json) :
  params = base \/ follow_up base params ->
  truthy tok = true ->
  follow_up base (next_params params tok).
Proof.
  intros Hp Ht. unfold next_params. rewrite Ht.
  destruct Hp as [->|(tok' & _ & ->)]; exists tok; split; auto.
  apply dict_set_set.
Qed.

(** After the first turn, every request of the loop is a follow-up of
    the base query. *)
Lemma fetch_loop_follow_ups (base : dict) (script : provider) :
  forall (verbose : bool) (params : dict) (places : list json) (tok : json),
    params = base \/ follow_up base params ->
    truthy tok = true ->
    Forall (follow_up base)
           (requests (trace (fetch_loop script verbose params places tok))).
Proof.
  induction script as [|r script IH]; intros verbose params places tok Hp Ht.
  - rewrite fetch_loop_exhausted. cbn. constructor; [|constructor].
    now apply follow_up_next.
  - pose proof (follow_up_next base params tok Hp Ht) as Hnext.
    destruct (fetch_loop_turn r script verbose params places tok)
      as [(e & _ & ->)|[(data & tail & o & _ & Htail & ->)
                       |(data & items & _ & Hc & ->)]].
    + cbn. now repeat constructor.
    + unfold trace. cbn [fst requests].
      rewrite requests_app, requests_verbose.
      destruct Htail as [->| ->]; cbn; now repeat constructor.
    + unfold trace, after. cbn [fst app requests].
      rewrite <- app_assoc, requests_app, requests_verbose. cbn [app requests].
      constructor; [assumption|]. apply IH; auto.
Qed.

(** The queries of a run: the base query, then follow-ups of it. *)
Lemma fetch_places_request_shape
        (API_KEY : string) (script : provider) (lat lng : pyfloat)
        (radius : Z) (types : option string) (verbose : bool) :
  let base := base_params API_KEY lat lng radius types in
  exists later,
    requests (trace (fetch_places API_KEY script lat lng radius types verbose))
    = base :: later /\
    Forall (follow_up base) later.
Proof.
  intros base. unfold fetch_places. fold base.
  destruct script as [|r script].
  - exists []. now split.
  - destruct (fetch_loop_turn r script verbose base [] JNull)
      as [(e & _ & ->)|[(data & tail & o & _ & Htail & ->)
                       |(data & items & _ & Hc & ->)]].
    + exists []. now split.
    + exists []. split; [|constructor]. unfold trace. cbn [fst requests].
      rewrite requests_app, requests_verbose.
      now destruct Htail as [->| ->].
    + eexists. unfold trace, after. cbn [fst app requests].
      rewrite <- app_assoc, requests_app, requests_verbose.
      cbn [app requests next_params truthy]. split; [reflexivity|].
      apply fetch_loop_follow_ups; auto.
Qed.

(** X2: whatever the provider answers, the first request of
    [fetch_places] carries the base query and every later request
    carries the same query with only [pagetoken] set, to a non-empty
    cursor: location, radius, key and type never change and the cursor
    is replaced, not accumulated. *)
Theorem fetch_places_queries
        (API_KEY : string) (script : provider) (lat lng : pyfloat)
        (radius : Z) (types : option string) (verbose : bool) :
  let base := base_params API_KEY lat lng radius types in
  exists later,
    requests (trace (fetch_places API_KEY script lat lng radius types verbose))
    = base :: later /\
    Forall (follow_up base) later.
Proof.
  apply fetch_places_request_shape.
Qed.

Lemma paced_after_sleep (verbose : bool) (data : json) (params : dict)
      (url : string) (params' : dict) (t : list event) :
  paced (EvRequest PLACES_URL params
           :: verbose_events verbose data
           ++ [EvSleep 2] ++ EvRequest url params' :: t)
  = paced (EvRequest url params' :: t).
Proof. destruct verbose; reflexivity. Qed.

Lemma fetch_loop_paced (script : provider) :
  forall (verbose : bool) (params : dict) (places : list json) (tok : json),
    let t := trace (fetch_loop script verbose params places tok) in
    paced t = true /\ slept t = 2 * (List.length (requests t) - 1).
Proof.
  induction script as [|r script IH]; intros verbose params places tok.
  - now rewrite fetch_loop_exhausted.
  - destruct (fetch_loop_turn r script verbose params places tok)
      as [(e & _ & ->)|[(data & tail & o & _ & Htail & ->)
                       |(data & items & _ & Hc & ->)]].
    + now split.
    + unfold trace. cbn [fst]. split.
      * destruct verbose, Htail as [->| ->]; reflexivity.
      * cbn [slept requests]. rewrite slept_app, requests_app.
        rewrite slept_verbose, requests_verbose.
        destruct Htail as [->| ->]; reflexivity.
    + destruct (fetch_loop_starts script verbose (next_params params tok)
                  (places ++ items) (continuation_cursor data)) as [t2 Ht2].
      destruct (IH verbose (next_params params tok) (places ++ items)
                   (continuation_cursor data)) as [Hp Hs].
      unfold trace in *. cbn [fst after] in *.
      rewrite Ht2 in *. split.
      * rewrite <- Hp. rewrite <- app_comm_cons, <- app_assoc.
        apply paced_after_sleep.
      * rewrite <- app_comm_cons, <- app_assoc.
        cbn [slept requests]. rewrite slept_app, requests_app.
        rewrite slept_verbose, requests_verbose.
        cbn [app slept requests List.length] in *. lia.
Qed.

(** X3: in every run of [fetch_places] the first effect is a request,
    every later request comes directly after a sleep of two seconds,
    and nothing else sleeps: the time slept is two seconds per request
    after the first. *)
Theorem fetch_places_paced
        (API_KEY : string) (script : provider) (lat lng : pyfloat)
        (radius : Z) (types : option string) (verbose : bool) :
  let t := trace (fetch_places API_KEY script lat lng radius types verbose) in
  (exists params t', t = EvRequest PLACES_URL params :: t') /\
  paced t = true /\
  slept t = 2 * (List.length (requests t) - 1).
Proof.
  intros t. subst t. unfold fetch_places. split.
  - destruct (fetch_loop_starts script verbose
                (base_params API_KEY lat lng radius types) [] JNull)
      as [t' Ht'].
    eauto.
  - apply fetch_loop_paced.
Qed.

(** X4: when a request or the decoding of its answer raises,
    [fetch_places] has no handler: the exception reaches the caller and
    the entries of the pages already collected are lost; no further
    request is issued. *)
Theorem fetch_places_transport_failure
        (API_KEY : string) (pages : list json) (e : exn) (rest : provider)
        (lat lng : pyfloat) (radius : Z) (types : option string)
        (verbose : bool) :
  Forall has_results_array pages ->
  Forall has_cursor pages ->
  let run := fetch_places API_KEY (map Reply pages ++ Fails e :: rest)
                          lat lng radius types verbose in
  result run = Raise e /\
  List.length (requests (trace run)) = S (List.length pages).
Proof.
  intros Hres Hcur run. subst run. unfold fetch_places.
  rewrite fetch_loop_pages by assumption.
  unfold result, trace, after. cbn [fetch_loop].
  fold (next_params (params_after (base_params API_KEY lat lng radius types)
                                  JNull pages) (cursor_after JNull pages)).
  rewrite bind_tell. cbn [after raise fst snd]. split; [reflexivity|].
  rewrite requests_app, length_app, requests_pages_trace. cbn. lia.
Qed.

Lemma fetch_places_transport_failure_witness :
  let run := fetch_places "KEY"
                          [Reply first_page;
                           Fails (RequestException "connection reset");
                           Reply mock_places_response]
                          sample_lat sample_lng 1000 None false in
  result run = Raise (RequestException "connection reset") /\
  List.length (requests (trace run)) = 2.
Proof.
  apply (fetch_places_transport_failure
           "KEY" [first_page] (RequestException "connection reset")
           [Reply mock_places_response] sample_lat sample_lng 1000 None false).
  - repeat constructor; discriminate.
  - repeat constructor.
Defined.

Lemma fetch_loop_verbose (script : provider) :
  forall (params : dict) (places : list json) (tok : json),
    result (fetch_loop script true params places tok)
    = result (fetch_loop script false params places tok) /\
    without_console (trace (fetch_loop script true params places tok))
    = trace (fetch_loop script false params places tok).
Proof.
  induction script as [|r script IH]; intros params places tok.
  - now split.
  - destruct r as [data|e]; [|now split].
    cbn [fetch_loop]. fold (next_params params tok).
    unfold result, trace, without_console, bind, tell, lift, ret in *.
    cbn [fst snd app filter is_console negb].
    destruct (py_contains "results" data) as [[|]|]; cbn; [|now split..].
    destruct (py_getitem data "results") as [results|]; cbn; [|now split].
    destruct (py_iter results) as [items|]; cbn; [|now split].
    destruct (py_get data "next_page_token" JNull) as [next|]; cbn;
      [|now split].
    destruct (truthy next); cbn; [|now split].
    destruct (IH (next_params params tok) (places ++ items) next)
      as [Hr Ht].
    destruct (fetch_loop script true (next_params params tok)
                         (places ++ items) next) as [t1 r1].
    destruct (fetch_loop script false (next_params params tok)
                         (places ++ items) next) as [t2 r2].
    cbn in *. subst. now split.
Qed.

(** X5: the verbose flag only adds console output: with and without
    it [fetch_places] returns the same result, and its trace without
    the console output is the trace of the quiet run (same requests,
    same sleeps, same error log). *)
Theorem fetch_places_verbose_only_prints
        (API_KEY : string) (script : provider) (lat lng : pyfloat)
        (radius : Z) (types : option string) :
  result (fetch_places API_KEY script lat lng radius types true)
  = result (fetch_places API_KEY script lat lng radius types false) /\
  without_console (trace (fetch_places API_KEY script lat lng radius types true))
  = trace (fetch_places API_KEY script lat lng radius types false).
Proof. apply fetch_loop_verbose. Qed.

(** X6: a response that is [null], a boolean or a number, or whose
    [results] field holds one of these, makes [fetch_places] raise a
    [TypeError]: the caller gets no list, not even the entries of the
    pages collected before. *)
Theorem fetch_places_not_iterable
        (API_KEY : string) (pages : list json) (data : json) (rest : provider)
        (lat lng : pyfloat) (radius : Z) (types : option string)
        (verbose : bool) :
  Forall has_results_array pages ->
  Forall has_cursor pages ->
  not_iterable_results data = true ->
  exists msg,
    result (fetch_places API_KEY (map Reply pages ++ Reply data :: rest)
                         lat lng radius types verbose)
    = Raise (TypeError msg).
Proof.
  intros Hres Hcur Hbad. unfold fetch_places.
  rewrite fetch_loop_pages by assumption.
  unfold result, after. cbn [snd fetch_loop].
  unfold bind, tell, lift, ret, py_contains, py_getitem, dict_in.
  destruct data as [| | | | | |fields]; cbn in Hbad; try discriminate;
    try (destruct verbose; cbn; eexists; reflexivity).
  destruct (dict_get "results" fields) as [v|]; [|discriminate].
  destruct v; try discriminate; destruct verbose; cbn; eexists; reflexivity.
Qed.

Lemma fetch_places_not_iterable_witness :
  exists msg,
    result (fetch_places "KEY"
                         [Reply first_page;
                          Reply (JObj [("results", JNull)])]
                         sample_lat sample_lng 1000 None false)
    = Raise (TypeError msg).
Proof.
  apply (fetch_places_not_iterable
           "KEY" [first_page] (JObj [("results", JNull)]) []
           sample_lat sample_lng 1000 None false).
  - repeat constructor; discriminate.
  - repeat constructor.
  - reflexivity.
Defined.

(** ** Measures of a trace *)

Section Measure.

(** A count that adds up over the parts of a trace. *)
Variable m : list event -> nat.
Hypothesis m_app : forall t u, m (t ++ u) = m t + m u.
Hypothesis m_nil : m [] = 0.

Lemma measure_bind {A B} (c : M A) (k : A -> M B) :
  m (fst (bind c k))
  = m (fst c) + match snd c with
                | Ok a => m (fst (k a))
                | Raise _ => 0
                end.
Proof.
  pose proof (trace_bind c k) as H. unfold trace, result in H.
  rewrite H, m_app.
  destruct (snd c); [reflexivity | now rewrite m_nil].
Qed.

Lemma measure_try_except {A} (body : M A) (handler : exn -> M A) :
  m (fst (try_except body handler))
  = m (fst body) + match snd body with
                   | Ok _ => 0
                   | Raise e => m (fst (handler e))
                   end.
Proof.
  destruct body as [t [a|e]]; cbn; [lia|].
  destruct (handler e); cbn. apply m_app.
Qed.

Lemma measure_parse_loop (els : list WebElement) (reviews : list Review) :
  m (fst (parse_loop els reviews)) = 0.
Proof.
  pose proof (parse_loop_trace els reviews) as H. unfold trace in H.
  rewrite H. exact m_nil.
Qed.

End Measure.

Lemma count_launch_app (t u : list event) :
  count_launch (t ++ u) = count_launch t + count_launch u.
Proof.
  induction t as [|ev t IH]; cbn [app count_launch]; [reflexivity|].
  destruct ev; rewrite ?IH; lia.
Qed.

Lemma count_script_app (t u : list event) :
  count_script (t ++ u) = count_script t + count_script u.
Proof.
  induction t as [|ev t IH]; cbn [app count_script]; [reflexivity|].
  destruct ev; rewrite ?IH; lia.
Qed.

(** One step into a sequence of commands, on a measure of its trace. *)
Ltac measure_step m m_app :=
  rewrite (measure_bind m m_app eq_refl);
  cbn [tell lift ret fst snd slept count_script count_launch count_quit
       Nat.add].

(** ** More on the scraper *)

(** The scroll loop runs at most [n] scripts and sleeps one second
    after each one that went through. *)
Lemma scroll_loop_bounds (driver : WebDriver) (panel : WebElement) (n : nat) :
  forall done,
    slept (trace (scroll_loop driver panel done n)) <= n /\
    count_script (trace (scroll_loop driver panel done n)) <= n.
Proof.
  unfold trace.
  induction n as [|n IH]; intros done; cbn [scroll_loop]; [now split|].
  destruct (IH (S done)) as [Hs Hc].
  split.
  - do 2 measure_step slept slept_app.
    destruct (execute_script driver done SCROLL_TO_BOTTOM panel); [|lia].
    measure_step slept slept_app. lia.
  - do 2 measure_step count_script count_script_app.
    destruct (execute_script driver done SCROLL_TO_BOTTOM panel); [|lia].
    measure_step count_script count_script_app. lia.
Qed.

Lemma scroll_loop_exact (driver : WebDriver) (panel : WebElement) (n : nat) :
  forall done,
    (forall i, i < done + n ->
               execute_script driver i SCROLL_TO_BOTTOM panel = Ok tt) ->
    slept (trace (scroll_loop driver panel done n)) = n /\
    count_script (trace (scroll_loop driver panel done n)) = n.
Proof.
  unfold trace.
  induction n as [|n IH]; intros done Hok; cbn [scroll_loop]; [now split|].
  destruct (IH (S done)) as [Hs Hc]; [intros i Hi; apply Hok; lia|].
  split.
  - do 2 measure_step slept slept_app. rewrite Hok by lia.
    measure_step slept slept_app. lia.
  - do 2 measure_step count_script count_script_app. rewrite Hok by lia.
    measure_step count_script count_script_app. lia.
Qed.

Lemma extract_reviews_bounds (driver : WebDriver) :
  slept (trace (extract_reviews driver)) <= 13 /\
  count_script (trace (extract_reviews driver)) <= 10.
Proof.
  unfold trace, extract_reviews. split.
  - measure_step slept slept_app.
    destruct (find_element driver XPATH REVIEWS_BUTTON) as [button|]; [|lia].
    do 2 measure_step slept slept_app.
    destruct (el_click button); [|lia].
    do 3 measure_step slept slept_app.
    destruct (find_element driver CLASS_NAME "m6QErb") as [panel|]; [|lia].
    measure_step slept slept_app.
    pose proof (proj1 (scroll_loop_bounds driver panel 10 0)) as Hs.
    unfold trace in Hs.
    destruct (snd (scroll_loop driver panel 0 10)); [|lia].
    measure_step slept slept_app.
    destruct (find_elements driver CLASS_NAME "jftiEf") as [els|]; [|lia].
    measure_step slept slept_app.
    rewrite (measure_parse_loop slept eq_refl).
    destruct (snd (parse_loop els [])); [|lia].
    measure_step slept slept_app. lia.
  - measure_step count_script count_script_app.
    destruct (find_element driver XPATH REVIEWS_BUTTON) as [button|]; [|lia].
    do 2 measure_step count_script count_script_app.
    destruct (el_click button); [|lia].
    do 3 measure_step count_script count_script_app.
    destruct (find_element driver CLASS_NAME "m6QErb") as [panel|]; [|lia].
    measure_step count_script count_script_app.
    pose proof (proj2 (scroll_loop_bounds driver panel 10 0)) as Hs.
    unfold trace in Hs.
    destruct (snd (scroll_loop driver panel 0 10)); [|lia].
    measure_step count_script count_script_app.
    destruct (find_elements driver CLASS_NAME "jftiEf") as [els|]; [|lia].
    measure_step count_script count_script_app.
    rewrite (measure_parse_loop count_script eq_refl).
    destruct (snd (parse_loop els [])); [|lia].
    measure_step count_script count_script_app. lia.
Qed.

Lemma parse_loop_well_formed (els : list WebElement) :
  forall (parsed reviews : list Review),
    Forall2 (fun c r => well_formed c (author r) (rating r) (text r))
            els parsed ->
    parse_loop els reviews = ([], Ok (reviews ++ parsed)).
Proof.
  induction els as [|c els IH]; intros parsed reviews Hwf;
    inversion Hwf as [|? r ? parsed' Hc Hrest]; subst; cbn [parse_loop].
  - now rewrite app_nil_r.
  - rewrite (parse_review_well_formed c _ _ _ Hc), bind_run, after_nil.
    rewrite (IH parsed') by assumption.
    destruct r. now rewrite <- app_assoc.
Qed.

(** X7: on a page whose panel loads, when every review container found
    is well formed, [scrape_reviews] returns one review per container,
    in the order of the page, each with the author, marker count and
    body of its container (none when the page shows no container).  The
    page is open: the console printed the opening line and the
    navigation went through. *)
Theorem scrape_reviews_in_page_order
        (markup : console) (driver : WebDriver) (place_id : string)
        (els : list WebElement) (reviews : list Review) :
  markup (opening_line place_id) = Ok tt ->
  get driver (place_url place_id) = Ok tt ->
  panel_loaded driver ->
  find_elements driver CLASS_NAME "jftiEf" = Ok els ->
  Forall2 (fun c r => well_formed c (author r) (rating r) (text r))
          els reviews ->
  result (scrape_reviews markup (Ok driver) place_id) = Ok reviews.
Proof.
  intros Hopen Hget Hpanel Hels Hwf.
  pose proof (extract_reviews_result driver els Hpanel Hels) as Hr.
  rewrite (parse_loop_well_formed els reviews []) in Hr by assumption.
  rewrite scrape_reviews_launched by assumption.
  destruct (extract_reviews driver) as [t [rs|e]];
    cbv [result snd] in Hr; [|discriminate].
  now injection Hr as ->.
Qed.

Lemma scrape_reviews_in_page_order_witness :
  result (scrape_reviews
            sample_console
            (Ok (page (Ok tt) true
                      [great_place;
                       review_container (Some "Bob") 0 (Some "")]))
            "test123")
  = Ok [mkReview "Ann" 5 "Great place!"; mkReview "Bob" 0 ""].
Proof.
  apply (scrape_reviews_in_page_order
           sample_console
           (page (Ok tt) true
                 [great_place; review_container (Some "Bob") 0 (Some "")])
           "test123"
           [great_place; review_container (Some "Bob") 0 (Some "")]
           [mkReview "Ann" 5 "Great place!"; mkReview "Bob" 0 ""]).
  - reflexivity.
  - reflexivity.
  - exists (leaf "reviews"), (leaf ""). repeat split.
  - reflexivity.
  - constructor; [|constructor; [|constructor]].
    + exists (leaf "Ann"), (repeat (leaf "") 5), (leaf "Great place!").
      repeat split.
    + exists (leaf "Bob"), [], (leaf ""). repeat split.
Defined.

Lemma parse_loop_ok_inv (els : list WebElement) :
  forall (reviews rs : list Review),
    result (parse_loop els reviews) = Ok rs ->
    exists parsed,
      rs = reviews ++ parsed /\
      Forall2 (fun c r => result (parse_review c) = Ok r) els parsed.
Proof.
  induction els as [|c els IH]; intros reviews rs H; cbn [parse_loop] in H.
  - injection H as <-. exists []. now rewrite app_nil_r.
  - rewrite result_bind in H.
    destruct (result (parse_review c)) as [r|] eqn:E; [|discriminate].
    destruct (IH _ _ H) as (parsed & -> & Hall).
    exists (r :: parsed). rewrite <- app_assoc. now split; [|constructor].
Qed.

Ltac run_step_in H :=
  rewrite result_bind in H; cbn [result lift tell ret snd] in H;
  cbv beta iota in H.

Lemma extract_reviews_ok_inv (driver : WebDriver) (rs : list Review) :
  result (extract_reviews driver) = Ok rs ->
  exists els,
    find_elements driver CLASS_NAME "jftiEf" = Ok els /\
    result (parse_loop els []) = Ok rs.
Proof.
  unfold extract_reviews. intros H.
  run_step_in H.
  destruct (find_element driver XPATH REVIEWS_BUTTON) as [button|];
    [|discriminate].
  do 2 run_step_in H. destruct (el_click button); [|discriminate].
  do 3 run_step_in H.
  destruct (find_element driver CLASS_NAME "m6QErb") as [panel|];
    [|discriminate].
  run_step_in H. fold (@result unit) in H.
  destruct (result (scroll_loop driver panel 0 10)); [|discriminate].
  run_step_in H.
  destruct (find_elements driver CLASS_NAME "jftiEf") as [els|];
    [|discriminate].
  exists els. split; [reflexivity|].
  run_step_in H. fold (@result (list Review)) in H.
  destruct (result (parse_loop els [])) as [l|]; [|discriminate].
  run_step_in H. exact H.
Qed.

(** A list comes back from [scrape_reviews] only when the browser was
    launched, the opening line printed and the page got. *)
Lemma scrape_reviews_ok_inv
      (markup : console) (Chrome : browser) (place_id : string)
      (reviews : list Review) :
  result (scrape_reviews markup Chrome place_id) = Ok reviews ->
  exists driver,
    Chrome = Ok driver /\
    markup (opening_line place_id) = Ok tt /\
    get driver (place_url place_id) = Ok tt.
Proof.
  intros H. destruct Chrome as [driver|e]; [|discriminate].
  exists driver. split; [reflexivity|].
  destruct (markup (opening_line place_id)) as [[]|e] eqn:Hopen.
  - split; [reflexivity|].
    destruct (get driver (place_url place_id)) as [[]|e] eqn:Hget;
      [reflexivity|].
    destruct (scrape_reviews_navigation_failure _ _ _ e Hopen Hget)
      as [Hr _].
    congruence.
  - rewrite (scrape_reviews_opening_refused _ _ _ e Hopen) in H.
    discriminate.
Qed.

(** X8: what [scrape_reviews] returns is all or nothing: the empty
    list, or exactly one review per container found, each one parsed
    from its container, in order.  A list covering only some of the
    containers is never returned, whatever the browser and the console
    do. *)
Theorem scrape_reviews_all_or_nothing
        (markup : console) (Chrome : browser) (place_id : string)
        (reviews : list Review) :
  result (scrape_reviews markup Chrome place_id) = Ok reviews ->
  reviews = [] \/
  exists driver els,
    Chrome = Ok driver /\
    find_elements driver CLASS_NAME "jftiEf" = Ok els /\
    Forall2 (fun c r => result (parse_review c) = Ok r) els reviews.
Proof.
  intros H.
  destruct (scrape_reviews_ok_inv _ _ _ _ H) as (driver & -> & Hopen & Hget).
  rewrite scrape_reviews_launched in H by assumption.
  destruct (extract_reviews driver) as [t [rs|e]] eqn:E.
  - injection H as ->. right.
    destruct (extract_reviews_ok_inv driver reviews) as (els & Hels & Hp);
      [now rewrite E|].
    exists driver, els. split; [reflexivity|]. split; [assumption|].
    destruct (parse_loop_ok_inv els [] reviews Hp) as (parsed & -> & Hall).
    exact Hall.
  - destruct (markup (error_line e)); [|discriminate].
    injection H as <-. now left.
Qed.

Lemma scrape_reviews_all_or_nothing_witness :
  [mkReview "Ann" 5 "Great place!"] = [] \/
  exists driver els,
    Ok (page (Ok tt) true [great_place]) = Ok driver /\
    find_elements driver CLASS_NAME "jftiEf" = Ok els /\
    Forall2 (fun c r => result (parse_review c) = Ok r)
            els [mkReview "Ann" 5 "Great place!"].
Proof.
  apply (scrape_reviews_all_or_nothing
           sample_console (Ok (page (Ok tt) true [great_place])) "test123"
           [mkReview "Ann" 5 "Great place!"]).
  reflexivity.
Defined.

Lemma slept_opening (place_id : string) : slept (opening place_id) = 5.
Proof. reflexivity. Qed.

Lemma count_script_opening (place_id : string) :
  count_script (opening place_id) = 0.
Proof. reflexivity. Qed.

(** X9: no invocation of [scrape_reviews] sleeps more than 18 seconds
    (5 after navigation, 3 after the click, 1 after each scroll) or runs
    more than 10 scroll scripts, whatever the browser and the console
    do. *)
Theorem scrape_reviews_budget
        (markup : console) (Chrome : browser) (place_id : string) :
  slept (trace (scrape_reviews markup Chrome place_id)) <= 18 /\
  count_script (trace (scrape_reviews markup Chrome place_id)) <= 10.
Proof.
  destruct Chrome as [driver|e]; [|cbn; lia].
  destruct (markup (opening_line place_id)) as [[]|e] eqn:Hopen;
    [|rewrite (scrape_reviews_opening_refused _ _ _ e Hopen); cbn; lia].
  destruct (get driver (place_url place_id)) as [[]|e] eqn:Hget.
  - rewrite scrape_reviews_launched by assumption.
    destruct (extract_reviews_bounds driver) as [Hs Hc].
    unfold trace in *.
    destruct (extract_reviews driver) as [t [rs|e]];
      [|destruct (markup (error_line e))]; cbn [fst] in *;
      rewrite !slept_app, !count_script_app, slept_opening,
        count_script_opening; cbn; lia.
  - unfold scrape_reviews.
    rewrite bind_tell, bind_lift_ok, (console_print_ok _ _ Hopen).
    rewrite bind_tell, bind_tell, Hget.
    cbn. lia.
Qed.

Lemma extract_reviews_exact (driver : WebDriver) :
  panel_loaded driver ->
  slept (trace (extract_reviews driver)) = 13 /\
  count_script (trace (extract_reviews driver)) = 10.
Proof.
  intros (button & panel & Hb & Hclick & Hp & Hscroll).
  pose proof (scroll_loop_ok driver panel 10 0 Hscroll) as Hok.
  destruct (scroll_loop_exact driver panel 10 0 Hscroll) as [Hs Hc].
  unfold trace, result, extract_reviews in *. split.
  - measure_step slept slept_app. rewrite Hb.
    do 2 measure_step slept slept_app. rewrite Hclick.
    do 3 measure_step slept slept_app. rewrite Hp.
    measure_step slept slept_app. rewrite Hok, Hs.
    measure_step slept slept_app.
    destruct (find_elements driver CLASS_NAME "jftiEf") as [els|]; [|lia].
    measure_step slept slept_app.
    rewrite (measure_parse_loop slept eq_refl).
    destruct (snd (parse_loop els [])); [|lia].
    measure_step slept slept_app. lia.
  - measure_step count_script count_script_app. rewrite Hb.
    do 2 measure_step count_script count_script_app. rewrite Hclick.
    do 3 measure_step count_script count_script_app. rewrite Hp.
    measure_step count_script count_script_app. rewrite Hok, Hc.
    measure_step count_script count_script_app.
    destruct (find_elements driver CLASS_NAME "jftiEf") as [els|]; [|lia].
    measure_step count_script count_script_app.
    rewrite (measure_parse_loop count_script eq_refl).
    destruct (snd (parse_loop els [])); [|lia].
    measure_step count_script count_script_app. lia.
Qed.

(** X10: on a page whose panel loads, [scrape_reviews] runs the scroll
    script exactly 10 times and sleeps exactly 18 seconds, whether or
    not the page then shows any review, whether or not parsing succeeds
    and whether or not the console prints the error report: the
    scrolling never stops early.  The page is open: the console printed
    the opening line and the navigation went through. *)
Theorem scrape_reviews_fixed_scrolling
        (markup : console) (driver : WebDriver) (place_id : string) :
  markup (opening_line place_id) = Ok tt ->
  get driver (place_url place_id) = Ok tt ->
  panel_loaded driver ->
  slept (trace (scrape_reviews markup (Ok driver) place_id)) = 18 /\
  count_script (trace (scrape_reviews markup (Ok driver) place_id)) = 10.
Proof.
  intros Hopen Hget Hpanel. rewrite scrape_reviews_launched by assumption.
  destruct (extract_reviews_exact driver Hpanel) as [Hs Hc].
  unfold trace in *.
  destruct (extract_reviews driver) as [t [rs|e]];
    [|destruct (markup (error_line e))]; cbn [fst] in *;
    rewrite !slept_app, !count_script_app, slept_opening,
      count_script_opening; cbn; lia.
Qed.

Lemma scrape_reviews_fixed_scrolling_witness :
  slept (trace (scrape_reviews sample_console
                               (Ok (page (Ok tt) true [no_author]))
                               "test123")) = 18 /\
  count_script (trace (scrape_reviews sample_console
                                      (Ok (page (Ok tt) true [no_author]))
                                      "test123")) = 10.
Proof.
  apply (scrape_reviews_fixed_scrolling
           sample_console (page (Ok tt) true [no_author]) "test123").
  - reflexivity.
  - reflexivity.
  - exists (leaf "reviews"), (leaf ""). repeat split.
Defined.

(** ** The table, for any list of JSON values *)

Section DisplayAny.

Variable repr_container : json -> string.

(** A row is built only for a displayable place, and it is the row
    [displayed_row] describes. *)
Lemma place_row_ok_inv (place : json) (row : list string) :
  result (place_row repr_container place) = Ok row ->
  displayable place = true /\ row = displayed_row repr_container place.
Proof.
  unfold place_row. intros H.
  destruct place as [| | | | | |fields]; try discriminate.
  unfold displayable, displayed_row, has_place_id, place_coord, place_location.
  repeat (run_step_in H; cbn [py_get py_getitem dict_get] in H;
          cbn [place_field when_present is_obj is_cell dict_get andb];
          try match type of H with
              | context [match dict_get ?k ?d with _ => _ end] =>
                  destruct (dict_get k d) as [?v|]
              end;
          cbv beta iota in H;
          try match type of H with
              | context [py_get ?v _ _] => is_var v; destruct v
              | context [add_cell ?v] => is_var v; destruct v
              end;
          cbn [py_get add_cell] in H; try discriminate).
  all: injection H as <-; split; reflexivity.
Qed.

Lemma place_row_displayable (place : json) :
  displayable place = true ->
  place_row repr_container place
  = ([], Ok (displayed_row repr_container place)).
Proof.
  destruct place as [| | | | | |fields]; try discriminate.
  unfold displayable, has_place_id, place_location.
  cbn [place_field is_obj andb]. intros H.
  repeat (apply andb_true_iff in H as [H ?]).
  unfold place_row, displayed_row, place_coord, place_location.
  cbn [place_field py_get py_getitem].
  destruct (dict_get "place_id" fields) as [[| | | |pid| |]|];
    try discriminate;
    (destruct (dict_get "name" fields) as [[| | | |name| |]|];
     try discriminate);
    (destruct (dict_get "geometry" fields) as [[| | | | | |gfields]|];
     try discriminate);
    cbn in *;
    try (destruct (dict_get "location" gfields) as [[| | | | | |lfields]|];
         try discriminate; cbn);
    repeat match goal with
           | |- context [dict_get ?k ?d] => destruct (dict_get k d); cbn
           end;
    reflexivity.
Qed.

Lemma place_row_not_displayable (place : json) :
  displayable place = false ->
  exists e, place_row repr_container place = ([], Raise e).
Proof.
  intros Hd. pose proof (place_row_trace repr_container place) as Ht.
  destruct (place_row repr_container place) as [t [row|e]] eqn:E;
    cbn in Ht; subst t; [|eauto].
  destruct (place_row_ok_inv place row) as [Hok _]; [now rewrite E|].
  congruence.
Qed.

Lemma rows_loop_displayable (places : list json) :
  forall rows,
    forallb displayable places = true ->
    rows_loop repr_container places rows
    = ([], Ok (rows ++ map (displayed_row repr_container) places)).
Proof.
  induction places as [|place rest IH]; intros rows Hall;
    cbn [rows_loop map forallb] in *.
  - now rewrite app_nil_r.
  - apply andb_true_iff in Hall as [Hp Hrest].
    rewrite place_row_displayable, bind_run, after_nil by assumption.
    rewrite IH by assumption. now rewrite <- app_assoc.
Qed.

Lemma rows_loop_not_displayable (places : list json) :
  forall rows,
    forallb displayable places = false ->
    exists e, rows_loop repr_container places rows = ([], Raise e).
Proof.
  induction places as [|place rest IH]; intros rows Hall;
    cbn [rows_loop forallb] in *; [discriminate|].
  destruct (displayable place) eqn:Hp.
  - rewrite place_row_displayable, bind_run, after_nil by assumption.
    now apply IH.
  - destruct (place_row_not_displayable place Hp) as [e ->].
    rewrite bind_raise. eauto.
Qed.

Lemma display_places_any (markup : console) (places : list json) :
  let rows := map (displayed_row repr_container) places in
  if forallb displayable places
  then display_places repr_container markup places
       = match render_all markup (table_cells COLUMNS rows) with
         | Ok _ => ([EvPrintTable "Places Found" COLUMNS rows], Ok tt)
         | Raise e => ([], Raise e)
         end
  else exists e, display_places repr_container markup places = ([], Raise e).
Proof.
  intros rows. subst rows. unfold display_places.
  destruct (forallb displayable places) eqn:Hall.
  - rewrite rows_loop_displayable by assumption.
    rewrite bind_run, after_nil. apply print_table_run.
  - destruct (rows_loop_not_displayable places [] Hall) as [e ->].
    rewrite bind_raise. eauto.
Qed.

(** The console gets through the cells of a table exactly when it
    accepts each of them. *)
Lemma render_all_ok_iff (markup : console) (cells : list string) :
  render_all markup cells = Ok tt <->
  Forall (fun cell => markup cell = Ok tt) cells.
Proof.
  split; [|apply render_all_ok].
  induction cells as [|cell rest IH]; cbn [render_all]; [constructor|].
  destruct (markup cell) as [[]|e] eqn:Hcell; [|discriminate].
  intros H. constructor; [assumption | now apply IH].
Qed.

(** Read column after column, a table of five-cell rows holds the cells
    of its rows and no other. *)
Lemma table_cells_rows (P : string -> Prop) (rows : list (list string)) :
  Forall (fun row => List.length row = List.length COLUMNS) rows ->
  Forall P (table_cells COLUMNS rows) <-> Forall (Forall P) rows.
Proof.
  intros Hlen. unfold table_cells, column_cells.
  cbn [COLUMNS List.length seq flat_map].
  rewrite ?app_nil_r, !Forall_app, !Forall_map.
  rewrite Forall_forall in Hlen. rewrite !Forall_forall. split.
  - intros (H0 & H1 & H2 & H3 & H4) row Hin.
    specialize (Hlen row Hin). specialize (H0 row Hin).
    specialize (H1 row Hin). specialize (H2 row Hin).
    specialize (H3 row Hin). specialize (H4 row Hin).
    destruct row as [|a [|b [|c [|d [|e [|]]]]]]; try discriminate.
    repeat constructor; assumption.
  - intros H. repeat split; intros row Hin;
      specialize (Hlen row Hin); specialize (H row Hin);
      (destruct row as [|a [|b [|c [|d [|e [|]]]]]]; try discriminate);
      repeat match goal with
             | H : Forall _ (_ :: _) |- _ => inversion_clear H
             end;
      assumption.
Qed.

Lemma displayed_rows_length (places : list json) :
  Forall (fun row => List.length row = List.length COLUMNS)
         (map (displayed_row repr_container) places).
Proof.
  apply Forall_forall. intros row Hin.
  apply in_map_iff in Hin as (place & <- & _). reflexivity.
Qed.

(** The table of displayable places is printed when the console
    accepts its cells. *)
Lemma display_places_printed (markup : console) (places : list json) :
  forallb displayable places = true ->
  cells_accepted markup (map (displayed_row repr_container) places) ->
  display_places repr_container markup places
  = ([EvPrintTable "Places Found" COLUMNS
                   (map (displayed_row repr_container) places)],
     Ok tt).
Proof.
  intros Hall Hacc.
  pose proof (display_places_any markup places) as Hany. cbv zeta in Hany.
  rewrite Hall in Hany. rewrite Hany.
  apply (table_cells_rows _ _ (displayed_rows_length places)) in Hacc.
  apply render_all_ok in Hacc. now rewrite Hacc.
Qed.

(** [display_places] prints a table or nothing. *)
Lemma display_places_trace (markup : console) (places : list json) :
  fst (display_places repr_container markup places) = [] \/
  exists rows,
    fst (display_places repr_container markup places)
    = [EvPrintTable "Places Found" COLUMNS rows].
Proof.
  pose proof (display_places_any markup places) as Hany. cbv zeta in Hany.
  destruct (forallb displayable places).
  - rewrite Hany.
    destruct (render_all markup _); cbn [fst]; [right; eauto | now left].
  - destruct Hany as [e ->]. now left.
Qed.

(** X11: for any list of JSON values, [display_places] succeeds exactly
    when every entry is an object with a ['place_id'] whose name and
    identifier are strings or [null] and whose geometry and location,
    where present, are objects, and the console accepts the text of
    every cell.  It then prints one table with one five-cell row per
    entry, in order: ["N/A"] stands for a missing key only, a [null]
    name or identifier gives an empty cell and a [null] rating or
    coordinate the text [None].  Otherwise it raises and prints
    nothing, not even the rows built before the failure. *)
Theorem display_places_all_or_nothing
        (markup : console) (places : list json) :
  let rows := map (displayed_row repr_container) places in
  (forallb displayable places = true ->
   cells_accepted markup rows ->
   display_places repr_container markup places
   = ([EvPrintTable "Places Found" COLUMNS rows], Ok tt)) /\
  (forallb displayable places = false \/ ~ cells_accepted markup rows ->
   exists e, display_places repr_container markup places = ([], Raise e)) /\
  Forall (fun row => List.length row = List.length COLUMNS) rows.
Proof.
  intros rows. subst rows. unfold cells_accepted.
  pose proof (display_places_any markup places) as Hany. cbv zeta in Hany.
  pose proof (displayed_rows_length places) as Hlen.
  pose proof (render_all_ok_iff
                markup
                (table_cells COLUMNS
                             (map (displayed_row repr_container) places)))
    as Hiff.
  rewrite (table_cells_rows _ _ Hlen) in Hiff.
  split; [|split; [|exact Hlen]].
  - intros Hall Hacc. rewrite Hall in Hany.
    apply Hiff in Hacc. now rewrite Hacc in Hany.
  - intros Hbad. destruct (forallb displayable places); [|exact Hany].
    destruct Hbad as [Hbad|Hbad]; [discriminate|].
    destruct (render_all markup _) as [[]|e]; [|eauto].
    exfalso. apply Hbad, Hiff. reflexivity.
Qed.

End DisplayAny.

Lemma display_places_all_or_nothing_witness :
  display_places sample_repr sample_console
                 [test_hospital; JObj [("place_id", JNull)]]
  = ([EvPrintTable
        "Places Found" COLUMNS
        [ ["Test Hospital"; "4.5"; "test123"; "40.7128"; "-74.006"];
          ["N/A"; "N/A"; ""; "N/A"; "N/A"] ]],
     Ok tt) /\
  exists e,
    display_places sample_repr sample_console
                   [test_hospital; place_named_by_tag]
    = ([], Raise e).
Proof.
  split.
  - apply (display_places_all_or_nothing
             sample_repr sample_console
             [test_hospital; JObj [("place_id", JNull)]]).
    + reflexivity.
    + repeat constructor.
  - apply (display_places_all_or_nothing
             sample_repr sample_console [test_hospital; place_named_by_tag]).
    right. intros Hacc. inversion_clear Hacc as [|? ? _ Hrest].
    inversion_clear Hrest as [|? ? Hrow _].
    inversion_clear Hrow as [|? ? Hcell _]. discriminate.
Defined.

(** ** Which effects each function has *)

Section FetchMeasure.

(** A count that ignores everything [fetch_places] does. *)
Variable m : list event -> nat.
Hypothesis m_app : forall t u, m (t ++ u) = m t + m u.
Hypothesis m_nil : m [] = 0.
Hypothesis m_request : forall url params, m [EvRequest url params] = 0.
Hypothesis m_sleep : forall n, m [EvSleep n] = 0.
Hypothesis m_log : forall data, m [EvLogError data] = 0.
Hypothesis m_print : forall msg, m [EvPrint msg] = 0.
Hypothesis m_json : forall data, m [EvPrintJson data] = 0.

Lemma measure_cons (ev : event) (t : list event) : m (ev :: t) = m [ev] + m t.
Proof. apply (m_app [ev] t). Qed.

Lemma measure_verbose (verbose : bool) (data : json) :
  m (verbose_events verbose data) = 0.
Proof.
  destruct verbose; cbn [verbose_events]; [|exact m_nil].
  now rewrite measure_cons, m_print, m_json.
Qed.

Lemma fetch_loop_measure0 (script : provider) :
  forall (verbose : bool) (params : dict) (places : list json) (tok : json),
    m (fst (fetch_loop script verbose params places tok)) = 0.
Proof.
  induction script as [|r script IH]; intros verbose params places tok.
  - rewrite fetch_loop_exhausted. apply m_request.
  - destruct (fetch_loop_turn r script verbose params places tok)
      as [(e & _ & ->)|[(data & tail & o & _ & Htail & ->)
                       |(data & items & _ & Hc & ->)]].
    + apply m_request.
    + cbn [fst]. rewrite measure_cons, m_app, m_request, measure_verbose.
      destruct Htail as [->| ->]; [exact m_nil | apply m_log].
    + unfold after. cbn [fst]. rewrite m_app, IH, measure_cons, m_app.
      now rewrite m_request, measure_verbose, m_sleep.
Qed.

End FetchMeasure.

Section PageMeasure.

(** A count that ignores what happens between launch and quit. *)
Variable m : list event -> nat.
Hypothesis m_app : forall t u, m (t ++ u) = m t + m u.
Hypothesis m_nil : m [] = 0.
Hypothesis m_click : m [EvClick] = 0.
Hypothesis m_sleep : forall n, m [EvSleep n] = 0.
Hypothesis m_print : forall msg, m [EvPrint msg] = 0.
Hypothesis m_script : forall script, m [EvScript script] = 0.

Lemma scroll_loop_measure0 (driver : WebDriver) (panel : WebElement)
      (n : nat) :
  forall done, m (fst (scroll_loop driver panel done n)) = 0.
Proof.
  induction n as [|n IH]; intros done; cbn [scroll_loop]; [exact m_nil|].
  rewrite !(measure_bind m m_app m_nil). cbn [tell lift fst snd].
  rewrite m_script, m_nil.
  destruct (execute_script driver done SCROLL_TO_BOTTOM panel);
    [|reflexivity].
  cbv beta iota. rewrite ?(measure_bind m m_app m_nil). cbn [tell fst snd].
  now rewrite m_sleep, IH.
Qed.

Lemma extract_reviews_measure0 (driver : WebDriver) :
  m (fst (extract_reviews driver)) = 0.
Proof.
  unfold extract_reviews.
  repeat (cbv beta iota;
          rewrite (measure_bind m m_app m_nil); cbn [tell lift ret fst snd];
          rewrite ?m_click, ?m_sleep, ?m_print, ?m_nil,
            ?scroll_loop_measure0, ?(measure_parse_loop m m_nil);
          cbn [Nat.add];
          try match goal with
              | |- context [match ?o with Ok _ => _ | Raise _ => _ end] =>
                  destruct o; [|reflexivity]
              end).
  reflexivity.
Qed.

Lemma console_print_measure0 (markup : console) (msg : string) :
  m (fst (console_print markup msg)) = 0.
Proof.
  unfold console_print.
  destruct (markup msg) as [[]|e]; cbn; [apply m_print | exact m_nil].
Qed.

Lemma print_reviews_measure0 (markup : console) (reviews : list Review) :
  m (fst (print_reviews markup reviews)) = 0.
Proof.
  induction reviews as [|review rest IH]; cbn [print_reviews];
    [exact m_nil|].
  rewrite (measure_bind m m_app m_nil), console_print_measure0, IH.
  now destruct (snd (console_print markup (review_line review))).
Qed.

End PageMeasure.

Lemma count_launch_extract (driver : WebDriver) :
  count_launch (trace (extract_reviews driver)) = 0.
Proof.
  apply (extract_reviews_measure0 count_launch count_launch_app);
    reflexivity.
Qed.

(** [print_reviews] runs to its end when the console accepts every
    line. *)
Lemma print_reviews_ok (markup : console) (reviews : list Review) :
  Forall (fun review => markup (review_line review) = Ok tt) reviews ->
  snd (print_reviews markup reviews) = Ok tt.
Proof.
  induction 1 as [|review rest Hline _ IH]; cbn [print_reviews];
    [reflexivity|].
  rewrite (console_print_ok _ _ Hline), bind_tell. exact IH.
Qed.

(** A browser that launches and opens every address, with a console
    that prints the opening line and the error report: the call of
    [scrape_reviews] returns, having launched once and quit once, the
    reviews of the [try:] block or none. *)
Lemma scrape_reviews_working
      (markup : console) (driver : WebDriver) (place_id : string) :
  markup (opening_line place_id) = Ok tt ->
  (forall url, get driver url = Ok tt) ->
  reports_rendered markup driver ->
  exists t reviews,
    scrape_reviews markup (Ok driver) place_id = (t, Ok reviews) /\
    count_launch t = 1 /\ count_quit t = 1 /\
    (reviews = [] \/ result (extract_reviews driver) = Ok reviews).
Proof.
  intros Hopen Hget Hreports.
  rewrite scrape_reviews_launched by auto.
  pose proof (extract_reviews_no_quit driver) as Hq.
  pose proof (count_launch_extract driver) as Hl.
  unfold reports_rendered in Hreports. unfold trace, result in *.
  destruct (extract_reviews driver) as [t [reviews|e]]; cbn [fst snd] in *;
    [|rewrite (Hreports e eq_refl)];
    eexists _, _; (split; [reflexivity|]);
    rewrite !count_launch_app, !count_quit_app, Hq, Hl; auto.
Qed.

(** A call of [scrape_reviews] that raises has quit no driver. *)
Lemma scrape_reviews_raises
      (markup : console) (Chrome : browser) (place_id : string) (e : exn) :
  markup (opening_line place_id) = Ok tt ->
  Chrome = Raise e \/
  (exists driver, Chrome = Ok driver /\ forall url, get driver url = Raise e) ->
  exists t,
    scrape_reviews markup Chrome place_id = (t, Raise e) /\
    count_launch t = 1 /\ count_quit t = 0.
Proof.
  intros Hopen [->|(driver & -> & Hget)].
  - exists [EvLaunch]. now split.
  - unfold scrape_reviews.
    rewrite bind_tell, bind_lift_ok, (console_print_ok _ _ Hopen).
    rewrite bind_tell, bind_tell, Hget.
    eexists. split; [reflexivity|]. now split.
Qed.

(** ** The program *)

Lemma core_app (t u : list main_event) : core (t ++ u) = core t ++ core u.
Proof. apply flat_map_app. Qed.

Lemma core_map_Core (t : list event) : core (map Core t) = t.
Proof.
  induction t as [|ev t IH]; [reflexivity|]. cbn. f_equal. exact IH.
Qed.

Lemma count_input_app (t u : list main_event) :
  count_input (t ++ u) = count_input t + count_input u.
Proof.
  induction t as [|ev t IH]; cbn [app count_input]; [reflexivity|].
  destruct ev; rewrite ?IH; lia.
Qed.

Lemma count_input_map_Core (t : list event) : count_input (map Core t) = 0.
Proof. induction t as [|ev t IH]; [reflexivity | exact IH]. Qed.

Lemma fetch_places_no_browser
      (API_KEY : string) (script : provider) (lat lng : pyfloat)
      (radius : Z) (types : option string) (verbose : bool) :
  count_launch
    (fst (fetch_places API_KEY script lat lng radius types verbose)) = 0 /\
  count_quit
    (fst (fetch_places API_KEY script lat lng radius types verbose)) = 0.
Proof.
  unfold fetch_places. split.
  - apply (fetch_loop_measure0 count_launch count_launch_app); reflexivity.
  - apply (fetch_loop_measure0 count_quit count_quit_app); reflexivity.
Qed.

Lemma display_places_no_browser (repr_container : json -> string)
      (markup : console) (places : list json) :
  count_launch (fst (display_places repr_container markup places)) = 0 /\
  count_quit (fst (display_places repr_container markup places)) = 0.
Proof.
  destruct (display_places_trace repr_container markup places)
    as [->|[rows ->]]; now split.
Qed.

Lemma displayable_lookups (place : json) :
  displayable place = true ->
  exists name place_id,
    py_get place "name" (JStr "Unknown Place") = Ok name /\
    py_getitem place "place_id" = Ok place_id.
Proof.
  destruct place as [| | | | | |fields]; try discriminate.
  unfold displayable, has_place_id. cbn [place_field is_obj andb py_get
                                         py_getitem].
  intros H. repeat (apply andb_true_iff in H as [H ?]).
  destruct (dict_get "place_id" fields) as [pid|]; [|discriminate].
  destruct (dict_get "name" fields); eauto.
Qed.

Section ScrapePlaces.

Variable repr_container : json -> string.
Variable markup : console.
Variable Chrome : nat -> browser.

(** One turn of the loop of [main] with a browser that opens pages and
    a console that prints the lines of the turn. *)
Lemma scrape_places_turn (launched : nat) (place : json) :
  displayable place = true ->
  lines_rendered repr_container markup place ->
  opens_pages (Chrome launched) ->
  session_rendered markup (Chrome launched) ->
  exists t,
    count_launch t = 1 /\ count_quit t = 1 /\
    forall rest,
      scrape_places repr_container markup Chrome launched (place :: rest)
      = after t (scrape_places repr_container markup Chrome (S launched) rest).
Proof.
  intros Hd [Hfetching Hopening] (driver & HC & Hget) Hsession.
  destruct (Hsession driver HC) as [Hreports Hreviews].
  destruct (displayable_lookups place Hd) as (name & pid & Hname & Hpid).
  specialize (Hfetching name Hname). specialize (Hopening pid Hpid).
  destruct (scrape_reviews_working markup driver (py_str repr_container pid)
              Hopening Hget Hreports)
    as (ts & reviews & Hs & Hl & Hq & Hrs).
  assert (Hlines : Forall (fun review => markup (review_line review) = Ok tt)
                          reviews).
  { destruct Hrs as [->|Hrs]; [constructor | now apply Hreviews]. }
  pose proof (print_reviews_ok markup reviews Hlines) as Hp.
  pose proof (print_reviews_measure0 count_launch count_launch_app eq_refl
                (fun _ => eq_refl) markup reviews) as Hpl.
  pose proof (print_reviews_measure0 count_quit count_quit_app eq_refl
                (fun _ => eq_refl) markup reviews) as Hpq.
  destruct (print_reviews markup reviews) as [tp r] eqn:Eprint;
    cbn [fst snd] in *.
  subst r.
  eexists. split; [|split]; [| |intros rest; cbn [scrape_places];
    rewrite Hname, Hpid, !bind_lift_ok, (console_print_ok _ _ Hfetching),
      bind_tell, HC, Hs, bind_run, Eprint, bind_run, !after_after;
    reflexivity].
  - rewrite !count_launch_app, Hl, Hpl. reflexivity.
  - rewrite !count_quit_app, Hq, Hpq. reflexivity.
Qed.

Lemma scrape_places_works (places : list json) :
  forall launched,
    forallb displayable places = true ->
    Forall (lines_rendered repr_container markup) places ->
    (forall n, opens_pages (Chrome n)) ->
    (forall n, session_rendered markup (Chrome n)) ->
    exists t,
      scrape_places repr_container markup Chrome launched places
      = (t, Ok tt) /\
      count_launch t = List.length places /\
      count_quit t = List.length places.
Proof.
  induction places as [|place rest IH];
    intros launched Hall Hlines Hopen Hsession.
  - exists []. now split.
  - cbn [forallb] in Hall. apply andb_true_iff in Hall as [Hp Hrest].
    inversion_clear Hlines as [|? ? Hline Hlines'].
    destruct (scrape_places_turn launched place Hp Hline (Hopen launched)
                (Hsession launched))
      as (t1 & Hl1 & Hq1 & Hstep).
    destruct (IH (S launched) Hrest Hlines' Hopen Hsession)
      as (t & Ht & Hl & Hq).
    exists (t1 ++ t). rewrite Hstep, Ht.
    rewrite count_launch_app, count_quit_app, Hl1, Hq1, Hl, Hq.
    now split.
Qed.

Lemma scrape_places_aborts (before : list json) :
  forall (launched : nat) (place : json) (rest : list json) (e : exn),
    forallb displayable (before ++ place :: rest) = true ->
    Forall (lines_rendered repr_container markup) (before ++ [place]) ->
    (forall j, j < List.length before ->
               opens_pages (Chrome (launched + j)) /\
               session_rendered markup (Chrome (launched + j))) ->
    fails_to_open (Chrome (launched + List.length before)) e ->
    exists t,
      scrape_places repr_container markup Chrome launched
                    (before ++ place :: rest)
      = (t, Raise e) /\
      count_launch t = S (List.length before) /\
      count_quit t = List.length before.
Proof.
  induction before as [|first before IH];
    intros launched place rest e Hall Hlines Hopen Hfail.
  - cbn [app List.length] in *. rewrite Nat.add_0_r in Hfail.
    cbn [forallb] in Hall. apply andb_true_iff in Hall as [Hp _].
    inversion_clear Hlines as [|? ? [Hfetching Hopening] _].
    destruct (displayable_lookups place Hp) as (name & pid & Hname & Hpid).
    specialize (Hfetching name Hname). specialize (Hopening pid Hpid).
    destruct (scrape_reviews_raises markup (Chrome launched)
                (py_str repr_container pid) e Hopening Hfail)
      as (t & Ht & Hl & Hq).
    cbn [scrape_places].
    rewrite Hname, Hpid, !bind_lift_ok, (console_print_ok _ _ Hfetching),
      bind_tell, Ht, bind_raise.
    eexists. split; [reflexivity|]. cbn [after fst app count_launch count_quit].
    now split.
  - cbn [app forallb List.length] in *.
    apply andb_true_iff in Hall as [Hp Hrest].
    inversion_clear Hlines as [|? ? Hline Hlines'].
    destruct (scrape_places_turn launched first Hp Hline)
      as (t1 & Hl1 & Hq1 & Hstep).
    { specialize (Hopen 0). rewrite Nat.add_0_r in Hopen. apply Hopen. lia. }
    { specialize (Hopen 0). rewrite Nat.add_0_r in Hopen. apply Hopen. lia. }
    destruct (IH (S launched) place rest e Hrest Hlines')
      as (t & Ht & Hl & Hq).
    { intros j Hj. replace (S launched + j) with (launched + S j) by lia.
      apply Hopen. lia. }
    { replace (S launched + List.length before)
        with (launched + S (List.length before)) by lia.
      exact Hfail. }
    exists (t1 ++ t). rewrite Hstep, Ht.
    rewrite count_launch_app, count_quit_app, Hl1, Hq1, Hl, Hq.
    now split.
Qed.

End ScrapePlaces.

Section MainProperties.

Variable API_KEY : string.
Variable repr_container : json -> string.
Variable markup : console.

(** X12: without [--yes], unless the answer at the prompt is [y], the
    program launches no browser and does not run to the end of [main]:
    it exits, or stops on an exception. *)
Theorem main_needs_confirmation
        (args : Args) (script : provider) (terminal : option string)
        (Chrome : nat -> browser) :
  yes args = false ->
  terminal <> Some "y" ->
  let run := main API_KEY repr_container markup args script terminal Chrome in
  count_launch (core (fst run)) = 0 /\ snd run <> Returns.
Proof.
  intros Hyes Hterm run. subst run. unfold main, call, say, confirmation.
  rewrite Hyes.
  destruct (fetch_places_no_browser API_KEY script (lat args) (lng args)
              (radius args) (types args) (verbose args)) as [Hfl _].
  destruct (fetch_places API_KEY script (lat args) (lng args) (radius args)
                         (types args) (verbose args)) as [tf [places|e]];
    cbn [fst snd] in *.
  - destruct places as [|p ps].
    + cbn [fst snd]. rewrite core_app, core_map_Core, count_launch_app, Hfl.
      split; [reflexivity | discriminate].
    + destruct (display_places_no_browser repr_container markup (p :: ps))
        as [Hdl _].
      destruct (display_places repr_container markup (p :: ps))
        as [td [[]|e]];
        cbn [fst snd] in *.
      * destruct terminal as [confirm|].
        -- destruct (String.eqb_spec confirm "y") as [->|_]; [congruence|].
           cbn [negb fst snd].
           rewrite core_app, core_map_Core, count_launch_app, Hfl.
           cbn [core flat_map app]. rewrite core_app, core_map_Core.
           cbn [count_launch]. rewrite count_launch_app, Hdl.
           split; [reflexivity | discriminate].
        -- cbn [fst snd].
           rewrite core_app, core_map_Core, count_launch_app, Hfl.
           cbn [core flat_map app]. rewrite core_app, core_map_Core.
           cbn [count_launch]. rewrite count_launch_app, Hdl.
           split; [reflexivity | discriminate].
      * cbn [fst snd].
        rewrite core_app, core_map_Core, count_launch_app, Hfl.
        cbn [core flat_map app]. rewrite core_map_Core.
        cbn [count_launch]. rewrite Hdl.
        split; [reflexivity | discriminate].
  - rewrite core_map_Core. split; [assumption | discriminate].
Qed.

(** X13: when the first response of the provider has no [results]
    field, or an empty [results] array and no cursor, the program
    prints that no places were found and exits with status 1 after that
    single request, having launched no browser: a provider error on the
    first page is not told apart from an empty area. *)
Theorem main_no_places
        (args : Args) (data : json) (rest : provider)
        (terminal : option string) (Chrome : nat -> browser) :
  lacks_results data \/
  (results_array data = Some [] /\ ~ has_cursor data) ->
  exists t,
    main API_KEY repr_container markup args (Reply data :: rest) terminal
         Chrome
    = (map Core t ++ [Core (EvPrint "[bold red]No places found.[/bold red]")],
       Exits 1) /\
    List.length (requests t) = 1 /\
    count_launch t = 0.
Proof.
  intros Hdata. unfold main, fetch_places.
  destruct Hdata as [Hbad|[Hres Hcur]].
  - rewrite fetch_loop_no_results by assumption.
    eexists. split; [reflexivity|]. cbn [requests].
    rewrite requests_app, requests_verbose. split; [reflexivity|].
    cbn [count_launch]. rewrite count_launch_app.
    now destruct (verbose args).
  - rewrite (fetch_loop_page _ []) by assumption.
    unfold has_cursor in Hcur.
    destruct (truthy (continuation_cursor data)); [congruence|].
    eexists. split; [reflexivity|]. cbn [fst app requests].
    rewrite app_nil_r, requests_verbose. split; [reflexivity|].
    cbn [count_launch]. now destruct (verbose args).
Qed.

(** X14: when the user agreed ([--yes], or [y] at the prompt), the
    search returned places that can all be displayed, every browser
    launches and opens its page, and the console accepts the texts it
    is given (the cells of the table, the two lines that name each
    place, the error reports and the review lines), the program scrapes
    every place, one browser after the other, and [main] returns:
    exactly one browser is launched and one quit per place, whatever
    the pages do to the scraper afterwards. *)
Theorem main_scrapes_every_place
        (args : Args) (script : provider) (terminal : option string)
        (Chrome : nat -> browser) (places : list json) :
  yes args = true \/ terminal = Some "y" ->
  result (fetch_places API_KEY script (lat args) (lng args) (radius args)
                       (types args) (verbose args)) = Ok places ->
  places <> [] ->
  forallb displayable places = true ->
  cells_accepted markup (map (displayed_row repr_container) places) ->
  Forall (lines_rendered repr_container markup) places ->
  (forall n, opens_pages (Chrome n)) ->
  (forall n, session_rendered markup (Chrome n)) ->
  let run := main API_KEY repr_container markup args script terminal Chrome in
  snd run = Returns /\
  count_launch (core (fst run)) = List.length places /\
  count_quit (core (fst run)) = List.length places.
Proof.
  intros Hyes Hfetch Hne Hall Hcells Hlines Hopen Hsession run. subst run.
  unfold main, call, say, confirmation.
  destruct (fetch_places_no_browser API_KEY script (lat args) (lng args)
              (radius args) (types args) (verbose args)) as [Hfl Hfq].
  unfold result in Hfetch.
  destruct (fetch_places API_KEY script (lat args) (lng args) (radius args)
                         (types args) (verbose args)) as [tf r];
    cbn [fst snd] in *. subst r.
  destruct places as [|p ps]; [congruence|].
  rewrite (display_places_printed repr_container markup (p :: ps) Hall Hcells).
  destruct (scrape_places_works repr_container markup Chrome (p :: ps) 0
              Hall Hlines Hopen Hsession)
    as (ts & -> & Hl & Hq).
  destruct (yes args) eqn:Hy.
  - cbn [fst snd map app]. split; [reflexivity|].
    rewrite !core_app, !core_map_Core. cbn [core flat_map app].
    rewrite !core_app, !core_map_Core. cbn [core flat_map app].
    rewrite !count_launch_app, !count_quit_app, Hfl, Hfq.
    cbn [count_launch count_quit].
    rewrite !count_launch_app, !count_quit_app, Hl, Hq.
    cbn [count_launch count_quit List.length]. split; lia.
  - destruct Hyes as [Hyes| ->]; [discriminate|].
    cbn [String.eqb Ascii.eqb Bool.eqb negb fst snd map app].
    split; [reflexivity|].
    rewrite !core_app, !core_map_Core. cbn [core flat_map app].
    rewrite !core_app, !core_map_Core. cbn [core flat_map app].
    rewrite !count_launch_app, !count_quit_app, Hfl, Hfq.
    cbn [count_launch count_quit].
    rewrite !count_launch_app, !count_quit_app, Hl, Hq.
    cbn [count_launch count_quit List.length]. split; lia.
Qed.

(** X15: when the user agreed, the table was printed and the browser
    of some place cannot be launched, or cannot open its page, the
    exception ends the whole program: the places after it are not
    scraped, and in the second case the browser just launched is not
    quit.  The places before it were scraped with browsers that open
    their pages, and the console accepted the texts it was given up to
    the failure. *)
Theorem main_aborts_on_browser_failure
        (args : Args) (script : provider) (terminal : option string)
        (Chrome : nat -> browser)
        (before : list json) (place : json) (rest : list json) (e : exn) :
  yes args = true \/ terminal = Some "y" ->
  result (fetch_places API_KEY script (lat args) (lng args) (radius args)
                       (types args) (verbose args))
  = Ok (before ++ place :: rest) ->
  forallb displayable (before ++ place :: rest) = true ->
  cells_accepted markup
                 (map (displayed_row repr_container)
                      (before ++ place :: rest)) ->
  Forall (lines_rendered repr_container markup) (before ++ [place]) ->
  (forall j, j < List.length before ->
             opens_pages (Chrome j) /\ session_rendered markup (Chrome j)) ->
  fails_to_open (Chrome (List.length before)) e ->
  let run := main API_KEY repr_container markup args script terminal Chrome in
  snd run = Raises e /\
  count_launch (core (fst run)) = S (List.length before) /\
  count_quit (core (fst run)) = List.length before.
Proof.
  intros Hyes Hfetch Hall Hcells Hlines Hopen Hfail run. subst run.
  unfold main, call, say, confirmation.
  destruct (fetch_places_no_browser API_KEY script (lat args) (lng args)
              (radius args) (types args) (verbose args)) as [Hfl Hfq].
  unfold result in Hfetch.
  destruct (fetch_places API_KEY script (lat args) (lng args) (radius args)
                         (types args) (verbose args)) as [tf r];
    cbn [fst snd] in *. subst r.
  pose proof (display_places_printed repr_container markup
                (before ++ place :: rest) Hall Hcells) as Hd.
  destruct (scrape_places_aborts repr_container markup Chrome before 0 place
              rest e Hall Hlines Hopen Hfail) as (ts & Hs & Hl & Hq).
  destruct (before ++ place :: rest) as [|p ps] eqn:Hplaces;
    [now destruct before|].
  rewrite Hd, Hs.
  destruct (yes args) eqn:Hy.
  - cbn [fst snd map app]. split; [reflexivity|].
    rewrite ?core_app, ?core_map_Core. cbn [core flat_map app].
    rewrite ?core_app, ?core_map_Core. cbn [core flat_map app].
    rewrite ?count_launch_app, ?count_quit_app, Hfl, Hfq.
    cbn [count_launch count_quit].
    rewrite Hl, Hq. split; lia.
  - destruct Hyes as [Hyes| ->]; [discriminate|].
    cbn [String.eqb Ascii.eqb Bool.eqb negb fst snd map app].
    split; [reflexivity|].
    rewrite ?core_app, ?core_map_Core. cbn [core flat_map app].
    rewrite ?core_app, ?core_map_Core. cbn [core flat_map app].
    rewrite ?count_launch_app, ?count_quit_app, Hfl, Hfq.
    cbn [count_launch count_quit].
    rewrite Hl, Hq. split; lia.
Qed.

(** X16: when the search returns a place that cannot be displayed (no
    ['place_id'], a [null] geometry, ...), the program stops on the
    exception of [display_places] before it asks anything and before
    it launches a browser: one such record hides all the others. *)
Theorem main_stops_on_undisplayable_place
        (args : Args) (script : provider) (terminal : option string)
        (Chrome : nat -> browser) (places : list json) :
  result (fetch_places API_KEY script (lat args) (lng args) (radius args)
                       (types args) (verbose args)) = Ok places ->
  forallb displayable places = false ->
  let run := main API_KEY repr_container markup args script terminal Chrome in
  (exists e, snd run = Raises e) /\
  count_input (fst run) = 0 /\
  count_launch (core (fst run)) = 0.
Proof.
  intros Hfetch Hall run. subst run. unfold main, call, say.
  destruct (fetch_places_no_browser API_KEY script (lat args) (lng args)
              (radius args) (types args) (verbose args)) as [Hfl _].
  unfold result in Hfetch.
  destruct (fetch_places API_KEY script (lat args) (lng args) (radius args)
                         (types args) (verbose args)) as [tf r];
    cbn [fst snd] in *. subst r.
  destruct places as [|p ps]; [discriminate|].
  pose proof (display_places_any repr_container markup (p :: ps)) as Hd.
  cbv zeta in Hd. rewrite Hall in Hd. destruct Hd as [e ->].
  cbn [fst snd map app]. split; [eauto|].
  rewrite count_input_app, count_input_map_Core.
  rewrite core_app, core_map_Core, count_launch_app, Hfl.
  now split.
Qed.

End MainProperties.

(** ** Requests are issued by [fetch_places] only *)

Lemma count_requests_app (t u : list event) :
  count_requests (t ++ u) = count_requests t + count_requests u.
Proof. unfold count_requests. now rewrite requests_app, length_app. Qed.

Lemma count_requests_scrape_reviews
      (markup : console) (Chrome : browser) (place_id : string) :
  count_requests (fst (scrape_reviews markup Chrome place_id)) = 0.
Proof.
  destruct Chrome as [driver|e]; [|reflexivity].
  pose proof (extract_reviews_measure0 count_requests count_requests_app
                eq_refl eq_refl (fun _ => eq_refl) (fun _ => eq_refl)
                (fun _ => eq_refl) driver) as He.
  destruct (markup (opening_line place_id)) as [[]|e] eqn:Hopen;
    [|now rewrite (scrape_reviews_opening_refused _ _ _ e Hopen)].
  destruct (get driver (place_url place_id)) as [[]|e] eqn:Hget.
  - rewrite scrape_reviews_launched by assumption.
    destruct (extract_reviews driver) as [t [rs|e]];
      [|destruct (markup (error_line e))]; cbn [fst] in *;
      now rewrite !count_requests_app, He.
  - unfold scrape_reviews.
    rewrite bind_tell, bind_lift_ok, (console_print_ok _ _ Hopen).
    now rewrite bind_tell, bind_tell, Hget.
Qed.

Lemma count_requests_nil (t : list event) :
  count_requests t = 0 -> requests t = [].
Proof. unfold count_requests. now destruct (requests t). Qed.

Lemma requests_scrape_places (repr_container : json -> string)
      (markup : console) (Chrome : nat -> browser) (places : list json) :
  forall launched,
    requests (fst (scrape_places repr_container markup Chrome launched
                                 places)) = [].
Proof.
  intros launched. apply count_requests_nil. revert launched.
  induction places as [|place rest IH]; intros launched; [reflexivity|].
  cbn [scrape_places].
  rewrite (measure_bind count_requests count_requests_app eq_refl).
  cbn [lift fst snd]. destruct (py_get place "name" _); [|reflexivity].
  rewrite (measure_bind count_requests count_requests_app eq_refl).
  cbn [lift fst snd]. destruct (py_getitem place "place_id"); [|reflexivity].
  rewrite (measure_bind count_requests count_requests_app eq_refl).
  rewrite (console_print_measure0 count_requests eq_refl (fun _ => eq_refl)).
  destruct (snd (console_print markup _)); [|reflexivity].
  rewrite (measure_bind count_requests count_requests_app eq_refl).
  rewrite count_requests_scrape_reviews.
  destruct (snd (scrape_reviews _ _ _)) as [reviews|]; [|reflexivity].
  rewrite (measure_bind count_requests count_requests_app eq_refl).
  rewrite (print_reviews_measure0 count_requests count_requests_app eq_refl
             (fun _ => eq_refl)).
  destruct (snd (print_reviews markup reviews)); [|reflexivity].
  now rewrite IH.
Qed.

Lemma requests_display_places (repr_container : json -> string)
      (markup : console) (places : list json) :
  requests (fst (display_places repr_container markup places)) = [].
Proof.
  now destruct (display_places_trace repr_container markup places)
    as [->|[rows ->]].
Qed.

(** Every request of the program is one of [fetch_places]. *)
Lemma main_requests (API_KEY : string) (repr_container : json -> string)
      (markup : console) (args : Args) (script : provider)
      (terminal : option string) (Chrome : nat -> browser) :
  requests (core (fst (main API_KEY repr_container markup args script
                            terminal Chrome)))
  = requests (fst (fetch_places API_KEY script (lat args) (lng args)
                                (radius args) (types args) (verbose args))).
Proof.
  unfold main, call, say, confirmation.
  destruct (fetch_places API_KEY script (lat args) (lng args) (radius args)
                         (types args) (verbose args)) as [tf [places|e]];
    cbn [fst snd]; [|now rewrite core_map_Core].
  destruct places as [|p ps].
  - cbn [fst]. rewrite core_app, core_map_Core, requests_app.
    cbn. now rewrite app_nil_r.
  - pose proof (requests_display_places repr_container markup (p :: ps))
      as Hd.
    pose proof (requests_scrape_places repr_container markup Chrome
                  (p :: ps) 0) as Hs.
    destruct (display_places repr_container markup (p :: ps))
      as [td [[]|e]];
      destruct (scrape_places repr_container markup Chrome 0 (p :: ps))
        as [ts [[]|e']];
      destruct (yes args); try destruct terminal as [confirm|];
      try destruct (String.eqb confirm "y");
      cbn [negb fst snd] in *;
      rewrite ?core_app, ?core_map_Core; cbn [core flat_map app];
      rewrite ?core_app, ?core_map_Core; cbn [core flat_map app];
      rewrite ?core_app, ?core_map_Core; cbn [core flat_map app];
      rewrite ?requests_app; cbn [requests]; rewrite ?requests_app;
      cbn [requests]; rewrite ?requests_app; rewrite ?Hd, ?Hs;
      cbn [requests app]; now rewrite ?app_nil_r.
Qed.

Lemma base_params_key (API_KEY : string) (lat lng : pyfloat) (radius : Z)
      (types : option string) :
  dict_get "key" (base_params API_KEY lat lng radius types)
  = Some (JStr API_KEY).
Proof.
  unfold base_params. destruct types as [t|]; [|reflexivity].
  destruct (truthy (JStr t)); [|reflexivity].
  now rewrite dict_get_set_other.
Qed.

(** X17: the program never sends a request without the API key: when
    the environment holds no key, or an empty one, it exits with status
    1 before any request; otherwise every request it issues, first or
    follow-up, carries that key as its [key] parameter. *)
Theorem program_requests_carry_key
        (env : option string) (repr_container : json -> string)
        (markup : console) (args : Args) (script : provider)
        (terminal : option string) (Chrome : nat -> browser) :
  let run := program env repr_container markup args script terminal Chrome in
  match env with
  | Some (String c key) =>
      Forall (fun params =>
                dict_get "key" params = Some (JStr (String c key)))
             (requests (core (fst run)))
  | _ => run = ([EvStdout MISSING_KEY], Exits 1)
  end.
Proof.
  intros run. subst run. unfold program.
  destruct env as [[|c key]|]; [reflexivity| |reflexivity].
  cbn [truthy String.eqb negb]. rewrite main_requests.
  destruct (fetch_places_request_shape (String c key) script (lat args)
              (lng args) (radius args) (types args) (verbose args))
    as (later & Hreq & Hlater).
  unfold trace in Hreq. rewrite Hreq.
  constructor; [apply base_params_key|].
  apply Forall_forall. intros params Hin.
  rewrite Forall_forall in Hlater.
  destruct (Hlater params Hin) as (tok & _ & ->).
  rewrite dict_get_set_other by discriminate. apply base_params_key.
Qed.

Lemma main_needs_confirmation_witness :
  let run := main "KEY" sample_repr sample_console (sample_args false)
                  [Reply mock_places_response] (Some "n")
                  (fun _ => working_browser [great_place]) in
  count_launch (core (fst run)) = 0 /\ snd run <> Returns.
Proof.
  apply (main_needs_confirmation
           "KEY" sample_repr sample_console (sample_args false)
           [Reply mock_places_response] (Some "n")
           (fun _ => working_browser [great_place])).
  - reflexivity.
  - discriminate.
Defined.

Lemma main_no_places_witness :
  exists t,
    main "KEY" sample_repr sample_console (sample_args true)
         [Reply cursor_without_results; Reply mock_places_response]
         None (fun _ => working_browser [great_place])
    = (map Core t ++ [Core (EvPrint "[bold red]No places found.[/bold red]")],
       Exits 1) /\
    List.length (requests t) = 1 /\
    count_launch t = 0.
Proof.
  apply (main_no_places
           "KEY" sample_repr sample_console (sample_args true)
           cursor_without_results
           [Reply mock_places_response] None
           (fun _ => working_browser [great_place])).
  left. reflexivity.
Defined.

(** The sample console prints what the program says of the sample
    places and of the sample page. *)
Lemma sample_lines_rendered :
  Forall (lines_rendered sample_repr sample_console)
         [test_hospital; JObj [("place_id", JStr "abc")]; test_hospital].
Proof.
  repeat constructor; intros v Hv; vm_compute in Hv; injection Hv as <-;
    reflexivity.
Qed.

Lemma sample_session_rendered :
  session_rendered sample_console (working_browser [great_place]).
Proof.
  intros driver Hd. injection Hd as <-. split.
  - intros e He. vm_compute in He. discriminate.
  - intros reviews Hr. vm_compute in Hr. injection Hr as <-.
    repeat constructor.
Qed.

Lemma main_scrapes_every_place_witness :
  let run := main "KEY" sample_repr sample_console (sample_args true)
                  [Reply first_page; Reply mock_places_response] None
                  (fun _ => working_browser [great_place]) in
  snd run = Returns /\
  count_launch (core (fst run)) = 3 /\
  count_quit (core (fst run)) = 3.
Proof.
  apply (main_scrapes_every_place
           "KEY" sample_repr sample_console (sample_args true)
           [Reply first_page; Reply mock_places_response] None
           (fun _ => working_browser [great_place])
           [test_hospital; JObj [("place_id", JStr "abc")]; test_hospital]).
  - left. reflexivity.
  - reflexivity.
  - discriminate.
  - reflexivity.
  - repeat constructor.
  - exact sample_lines_rendered.
  - intros n. eexists. split; [reflexivity|]. intros url. reflexivity.
  - intros n. exact sample_session_rendered.
Defined.

Lemma main_aborts_on_browser_failure_witness :
  let run := main "KEY" sample_repr sample_console (sample_args true)
                  [Reply first_page; Reply mock_places_response] None
                  (fun n => if Nat.eqb n 1
                            then Raise (WebDriverException "no chromedriver")
                            else working_browser [great_place]) in
  snd run = Raises (WebDriverException "no chromedriver") /\
  count_launch (core (fst run)) = 2 /\
  count_quit (core (fst run)) = 1.
Proof.
  apply (main_aborts_on_browser_failure
           "KEY" sample_repr sample_console (sample_args true)
           [Reply first_page; Reply mock_places_response] None
           (fun n => if Nat.eqb n 1
                     then Raise (WebDriverException "no chromedriver")
                     else working_browser [great_place])
           [test_hospital] (JObj [("place_id", JStr "abc")]) [test_hospital]
           (WebDriverException "no chromedriver")).
  - left. reflexivity.
  - reflexivity.
  - reflexivity.
  - repeat constructor.
  - pose proof sample_lines_rendered as H.
    inversion_clear H as [|? ? H1 H']. inversion_clear H' as [|? ? H2 _].
    constructor; [assumption|]. constructor; [assumption|]. constructor.
  - intros j Hj. destruct j as [|j]; [|cbn in Hj; lia].
    split; [|exact sample_session_rendered].
    eexists. split; [reflexivity|]. intros url. reflexivity.
  - left. reflexivity.
Defined.

Lemma main_stops_on_undisplayable_place_witness :
  let run := main "KEY" sample_repr sample_console (sample_args true)
                  [Reply (JObj [("results",
                                 JArr [test_hospital; place_null_geometry])])]
                  None (fun _ => working_browser [great_place]) in
  (exists e, snd run = Raises e) /\
  count_input (fst run) = 0 /\
  count_launch (core (fst run)) = 0.
Proof.
  apply (main_stops_on_undisplayable_place
           "KEY" sample_repr sample_console (sample_args true)
           [Reply (JObj [("results",
                          JArr [test_hospital; place_null_geometry])])]
           None (fun _ => working_browser [great_place])
           [test_hospital; place_null_geometry]).
  - reflexivity.
  - reflexivity.
Defined.
